(** * CGI test scripts and slow-consumer client of webserv

    A shallow embedding of the four Python programs of the test harness:
    - [www/cgi-bin/slow.py]          (module [Slow]),
    - [.test/8/cgi-bin8.2/status.py] (module [Status]),
    - [.test/8/cgi-bin8.2/test.py]   (module [Test]),
    - [.test/slow_client.py]         (module [SlowClient]).
    Module [Py] holds the operations of Python on strings and integers that
    the programs use, module [Cgi] the framing of CGI output; the modules
    [StatusPure], [SlowPure] and [TestPure] read the loops and branches of
    the scripts as functions, which the facts relate to the scripts.

    Conventions.  A Python [str] is a Rocq [string]; each character stands
    for the code point of the same number (0 to 255).  A Python [int] is a
    [Z].  A script is a computation in the monad [M]: it reads the process
    environment (passed as an argument), consumes standard input, and
    appends events to a trace; it either returns or raises an exception.
    The interpreter is CPython 3.11 or later, a 64-bit build in its
    default configuration: the standard streams are text streams in UTF-8
    that leave line ends as they are. *)

From Stdlib Require Import ZArith Ascii String List Lia.
From stdpp Require Import base option list strings pretty gmap.

Local Open Scope string_scope.
Local Open Scope Z_scope.
Local Open Scope list_scope.

(** ** Python strings *)

Module Py.

(** [prefix.startswith] *)
Definition startswith (prefix s : string) : bool := String.prefix prefix s.

(** [s.split(sep)] for a separator of one character: the fields between
    the occurrences of [sep]; never the empty list. *)
Fixpoint split (sep : ascii) (s : string) : list string :=
  match s with
  | EmptyString => [EmptyString]
  | String c rest =>
      if Ascii.eqb c sep then EmptyString :: split sep rest
      else match split sep rest with
           | field :: fields => String c field :: fields
           | [] => [String c EmptyString]
           end
  end.

(** [s.split(sep, 1)]: split at the first occurrence of [sep] only. *)
Fixpoint split1 (sep : ascii) (s : string) : list string :=
  match s with
  | EmptyString => [EmptyString]
  | String c rest =>
      if Ascii.eqb c sep then [EmptyString; rest]
      else match split1 sep rest with
           | field :: fields => String c field :: fields
           | [] => [String c EmptyString]
           end
  end.

(** The slices [s[:n]] and [s[n:]]. *)
Fixpoint take (n : nat) (s : string) : string :=
  match n, s with
  | S n', String c rest => String c (take n' rest)
  | _, _ => EmptyString
  end.

Fixpoint drop (n : nat) (s : string) : string :=
  match n, s with
  | S n', String _ rest => drop n' rest
  | _, _ => s
  end.

(** [sep in s] *)
Fixpoint contains (sep : ascii) (s : string) : bool :=
  match s with
  | EmptyString => false
  | String c rest => Ascii.eqb c sep || contains sep rest
  end.

(** [needle in hay] *)
Fixpoint occurs (needle hay : string) : bool :=
  String.prefix needle hay
  || match hay with
     | EmptyString => false
     | String _ rest => occurs needle rest
     end.

(** Truth value of a string: the empty string is false. *)
Definition truthy (s : string) : bool :=
  match s with EmptyString => false | String _ _ => true end.

(** *** [int(s)]

    Base 10: white space on both sides, an optional sign, then decimal
    digits, where single underscores may stand between digits. *)

Definition digit_value (c : ascii) : option Z :=
  let n := Z.of_N (N_of_ascii c) in
  if (48 <=? n) && (n <=? 57) then Some (n - 48) else None.

(** White space as [int] skips it: tab to carriage return, space, and the
    two white-space code points between 128 and 255. *)
Definition is_space (c : ascii) : bool :=
  let n := Z.of_N (N_of_ascii c) in
  ((9 <=? n) && (n <=? 13)) || (n =? 32) || (n =? 133) || (n =? 160).

Fixpoint all_space (s : string) : bool :=
  match s with
  | EmptyString => true
  | String c rest => is_space c && all_space rest
  end.

Fixpoint lstrip (s : string) : string :=
  match s with
  | EmptyString => EmptyString
  | String c rest => if is_space c then lstrip rest else s
  end.

(** The outcome of [int]: a value, or one of its two [ValueError]s, for a
    literal that is not an integer and for one with more digits than the
    interpreter converts. *)
Inductive int_result :=
  | IntValue (n : Z)
  | IntInvalid
  | IntExceeds (digits : nat).

(** The default of [sys.int_max_str_digits]. *)
Definition int_max_str_digits : nat := 4300.

(** The end of the digits: the limit is checked before what follows the
    digits is looked at. *)
Definition int_finish (digits : nat) (acc : Z) (rest : string) : int_result :=
  if (int_max_str_digits <? digits)%nat then IntExceeds digits
  else if all_space rest then IntValue acc
  else IntInvalid.

(** The digits after the sign.  [prev] tells whether the character just
    read was a digit; [digits] counts the digits and [acc] is their value
    so far. *)
Fixpoint int_digits (prev : bool) (digits : nat) (acc : Z) (s : string) : int_result :=
  match s with
  | EmptyString => if prev then int_finish digits acc s else IntInvalid
  | String c rest =>
      match digit_value c with
      | Some d => int_digits true (S digits) (10 * acc + d) rest
      | None =>
          if Ascii.eqb c "_" then
            if prev then int_digits false digits acc rest else IntInvalid
          else if prev then int_finish digits acc s else IntInvalid
      end
  end.

Definition int_negate (r : int_result) : int_result :=
  match r with
  | IntValue n => IntValue (- n)
  | IntInvalid | IntExceeds _ => r
  end.

Definition int_parse (s : string) : int_result :=
  match lstrip s with
  | String "+" rest => int_digits false 0 0 rest
  | String "-" rest => int_negate (int_digits false 0 0 rest)
  | body => int_digits false 0 0 body
  end.

(** [int(s)]; [None] stands for a [ValueError]. *)
Definition int (s : string) : option Z :=
  match int_parse s with
  | IntValue n => Some n
  | IntInvalid | IntExceeds _ => None
  end.

(** [str(n)], also the rendering of an integer in an f-string. *)
Definition str (n : Z) : string := pretty n.

(** [len(s)] *)
Definition len (s : string) : Z := Z.of_nat (String.length s).

(** The range of [Py_ssize_t], the type of sizes and indices. *)
Definition ssize_t_min : Z := - 2 ^ 63.
Definition ssize_t_max : Z := 2 ^ 63 - 1.

(** The largest number of seconds that, in nanoseconds, fits the 64 bits
    of the time type of the interpreter. *)
Definition time_max : Z := 9223372036.

(** *** Characters and bytes

    [s.encode()] in UTF-8, which is what a text stream puts on the pipe for
    [s] and what it has taken from the pipe when it hands over [s]: one
    byte for a character below 128 and two for the other characters of the
    domain. *)
Definition encode_char (c : ascii) : string :=
  let n := N_of_ascii c in
  if (n <? 128)%N then String c EmptyString
  else String (ascii_of_N (192 + n / 64)) (String (ascii_of_N (128 + n mod 64)) EmptyString).

Fixpoint encode (s : string) : string :=
  match s with
  | EmptyString => EmptyString
  | String c rest => encode_char c +:+ encode rest
  end.

(** [s.isascii()] *)
Fixpoint isascii (s : string) : bool :=
  match s with
  | EmptyString => true
  | String c rest => (N_of_ascii c <? 128)%N && isascii rest
  end.

(** The escapes ["\r"] and ["\n"] of string literals. *)
Definition CR : string := String "013"%char EmptyString.
Definition LF : string := String "010"%char EmptyString.

(** *** [repr(s)]

    Quoted with apostrophes, or with double quotes when the string has an
    apostrophe and no double quote; the quote in use and the backslash are
    escaped, so are the characters that are not printable. *)

Definition APOSTROPHE : ascii := "039"%char.
Definition QUOTE : ascii := "034"%char.
Definition BACKSLASH : ascii := "092"%char.

Definition hex_digit (n : N) : ascii :=
  ascii_of_N (if (n <? 10)%N then 48 + n else 87 + n)%N.

Definition is_printable (c : ascii) : bool :=
  let n := Z.of_N (N_of_ascii c) in
  ((32 <=? n) && (n <=? 126)) || ((161 <=? n) && negb (n =? 173)).

Definition repr_char (quote c : ascii) : string :=
  if Ascii.eqb c quote || Ascii.eqb c BACKSLASH then String BACKSLASH (String c EmptyString)
  else if Ascii.eqb c "009" then String BACKSLASH "t"
  else if Ascii.eqb c "010" then String BACKSLASH "n"
  else if Ascii.eqb c "013" then String BACKSLASH "r"
  else if is_printable c then String c EmptyString
  else let n := N_of_ascii c in
       String BACKSLASH
         (String "x" (String (hex_digit (n / 16)) (String (hex_digit (n mod 16)) EmptyString))).

Fixpoint repr_chars (quote : ascii) (s : string) : string :=
  match s with
  | EmptyString => EmptyString
  | String c rest => repr_char quote c +:+ repr_chars quote rest
  end.

Definition repr (s : string) : string :=
  let quote :=
    if contains APOSTROPHE s && negb (contains QUOTE s) then QUOTE else APOSTROPHE in
  String quote (repr_chars quote s +:+ String quote EmptyString).

End Py.

(** ** Processes: exceptions, standard streams, traces *)

(** The exceptions the scripts can meet; all are subclasses of
    [Exception], and [UnicodeDecodeError] is a subclass of [ValueError]. *)
Inductive exn_class :=
  ValueError | IndexError | UnicodeDecodeError | OSError | OverflowError | MemoryError.

(** What an exception carries: a message, or, for the [ValueError]s of
    [int], the rejected literal, which the message quotes, or the number
    of its digits. *)
Inductive exn_args :=
  | Message (text : string)
  | InvalidLiteral (literal : string)
  | ExceedsLimit (digits : nat).

Record exn := Exn { exn_class_of : exn_class; exn_args_of : exn_args }.

Definition is_ValueError (e : exn) : bool :=
  match exn_class_of e with
  | ValueError | UnicodeDecodeError => true
  | IndexError | OSError | OverflowError | MemoryError => false
  end.

(** [str(e)]: the message; that of [int] quotes the first 200 characters
    of the [repr] of the literal. *)
Definition exn_str (e : exn) : string :=
  match exn_args_of e with
  | Message text => text
  | InvalidLiteral literal =>
      "invalid literal for int() with base 10: "
      +:+ Py.take 200 (Py.repr literal)
  | ExceedsLimit digits =>
      "Exceeds the limit (" +:+ Py.str (Z.of_nat Py.int_max_str_digits)
      +:+ " digits) for integer string conversion: value has "
      +:+ Py.str (Z.of_nat digits)
      +:+ " digits; use sys.set_int_max_str_digits() to increase the limit"
  end.

(** [except Exception] catches every exception of the model. *)
Definition is_Exception (e : exn) : bool := true.

(** What a process does, in order: it writes to standard output, and it
    sleeps (the duration in seconds). *)
Inductive event :=
  | Write (data : string)
  | Sleep (seconds : Z).

(** Standard input as [sys.stdin] has it.  [inr text]: the characters
    still to be read, which the stream decodes from the bytes that the
    server has written before it closed the pipe; they are characters, not
    bytes, and [Py.encode text] are the bytes.  [inl e]: a stream whose
    reads raise [e], as for bytes that the decoder refuses or an error of
    the system.  A pipe that the server leaves open without data, on which
    a read would wait, is not among them.  The trace grows at its end. *)
Record world := World { w_stdin : exn + string; w_trace : list event }.

Inductive result (A : Type) :=
  | Return (a : A)
  | Raise (e : exn).
Arguments Return {A} a.
Arguments Raise {A} e.

Definition M (A : Type) : Type := world -> result A * world.

Definition ret {A} (a : A) : M A := fun w => (Return a, w).

Definition bind {A B} (m : M A) (k : A -> M B) : M B :=
  fun w => match m w with
           | (Return a, w') => k a w'
           | (Raise e, w') => (Raise e, w')
           end.

Definition raise {A} (e : exn) : M A := fun w => (Raise e, w).

(** [try: body except <class>: handler]; an exception the clause does not
    name goes on. *)
Definition try_except {A} (body : M A) (catches : exn -> bool)
    (handler : exn -> M A) : M A :=
  fun w => match body w with
           | (Return a, w') => (Return a, w')
           | (Raise e, w') => if catches e then handler e w' else (Raise e, w')
           end.

Global Instance M_ret : MRet M := @ret.
Global Instance M_bind : MBind M := fun A B k m => bind m k.

Definition emit (ev : event) : M unit :=
  fun w => (Return tt, World (w_stdin w) (w_trace w ++ [ev])).

(** [print(s)]: the text and a newline go to standard output. *)
Definition print (s : string) : M unit := emit (Write (s +:+ Py.LF)).

(** [time.sleep(seconds)] for an integer.  The duration is converted to
    nanoseconds first, which raises [OverflowError] for one beyond
    [Py.time_max] on either side; then a negative duration is refused with
    a [ValueError]; then the system refuses, with [OSError], a duration
    beyond [sleep_max], the longest that the platform sleeps (at most
    [Py.time_max]: no conversion gets further). *)
Definition time_sleep (sleep_max seconds : Z) : M unit :=
  if seconds <? - Py.time_max then
    raise (Exn OverflowError (Message "timestamp too large to convert to C _PyTime_t"))
  else if seconds <? 0 then
    raise (Exn ValueError (Message "sleep length must be non-negative"))
  else if sleep_max <? seconds then
    if Py.time_max <? seconds then
      raise (Exn OverflowError (Message "timestamp too large to convert to C _PyTime_t"))
    else raise (Exn OSError (Message "[Errno 22] Invalid argument"))
  else emit (Sleep seconds).

(** The [ValueError] of [int] for a literal that it does not convert. *)
Definition int_error (s : string) : exn :=
  match Py.int_parse s with
  | Py.IntExceeds digits => Exn ValueError (ExceedsLimit digits)
  | Py.IntValue _ | Py.IntInvalid => Exn ValueError (InvalidLiteral s)
  end.

(** [int(s)] as a computation. *)
Definition int (s : string) : M Z :=
  match Py.int s with
  | Some n => ret n
  | None => raise (int_error s)
  end.

(** [fields[i]] *)
Definition index (fields : list string) (i : nat) : M string :=
  match fields !! i with
  | Some field => ret field
  | None => raise (Exn IndexError (Message "list index out of range"))
  end.

(** [sys.stdin.read(size)]: at most [size] characters, everything when
    [size] is negative.  The size is converted to an index first, which
    raises [OverflowError] outside the range of [Py_ssize_t]; a read of no
    character returns without a look at the stream; for a positive size
    the interpreter asks for a buffer before it reads, and raises
    [MemoryError], whose message is empty, when it gets none: [read_ok]
    tells for which sizes the platform has the memory. *)
Definition stdin_read (read_ok : Z -> bool) (size : Z) : M string :=
  fun w =>
    if (size <? Py.ssize_t_min) || (Py.ssize_t_max <? size) then
      (Raise (Exn OverflowError (Message "cannot fit 'int' into an index-sized integer")), w)
    else if size =? 0 then (Return "", w)
    else if (0 <? size) && negb (read_ok size) then
      (Raise (Exn MemoryError (Message "")), w)
    else
      match w_stdin w with
      | inl e => (Raise e, w)
      | inr text =>
          if size <? 0 then (Return text, World (inr "") (w_trace w))
          else let n := Z.to_nat size in
               (Return (Py.take n text), World (inr (Py.drop n text)) (w_trace w))
      end.

(** A loop [for x in xs] whose body updates the local variables [st]. *)
Fixpoint for_each {A S} (xs : list A) (body : S -> A -> M S) (st : S) : M S :=
  match xs with
  | [] => ret st
  | x :: rest => st' ← body st x; for_each rest body st'
  end.

(** [os.environ.get(name, fallback)] *)
Definition environ_get (environ : gmap string string) (name fallback : string) : string :=
  default fallback (environ !! name).

(** Everything written to standard output, in order. *)
Fixpoint stdout (trace : list event) : string :=
  match trace with
  | [] => ""
  | Write data :: rest => data +:+ stdout rest
  | Sleep _ :: rest => stdout rest
  end.

(** A loop [for x in xs] without local variables. *)
Definition for_ {A} (xs : list A) (body : A -> M unit) : M unit :=
  for_each xs (fun _ x => body x) tt.

(** A run from an empty trace. *)
Definition run {A} (m : M A) (stdin : exn + string) : result A * world :=
  m (World stdin []).

(** ** [status.py] *)

Module Status.

(** The local variables of [main] that the loop over the query updates. *)
Record locals := Locals { status_code : Z; redirect_url : option string }.

(** The body of [for param in query.split('&')]. *)
Definition parse_param (st : locals) (param : string) : M locals :=
  if Py.startswith "code=" param then
    try_except
      (value ← index (Py.split "=" param) 1;
       code ← int value;
       mret (Locals code (redirect_url st)))
      is_ValueError
      (fun _ => mret st)
  else if Py.startswith "redirect=" param then
    value ← index (Py.split "=" param) 1;
    mret (Locals (status_code st) (Some value))
  else mret st.

Definition phrases : gmap Z string :=
  list_to_map
    [ (200, "OK"); (201, "Created"); (204, "No Content");
      (301, "Moved Permanently"); (302, "Found"); (400, "Bad Request");
      (403, "Forbidden"); (404, "Not Found"); (500, "Internal Server Error") ].

(** [if redirect_url:] holds for a string that is not empty. *)
Definition redirect_target (st : locals) : option string :=
  match redirect_url st with
  | Some url => if Py.truthy url then Some url else None
  | None => None
  end.

Definition output_headers (code : Z) (phrase : string) (st : locals) : M unit :=
  print ("Status: " +:+ Py.str code +:+ " " +:+ phrase +:+ Py.CR);;
  match redirect_target st with
  | Some url => print ("Location: " +:+ url +:+ Py.CR)
  | None => mret tt
  end;;
  print ("Content-Type: text/html" +:+ Py.CR);;
  print Py.CR.

Definition output_body (code : Z) (phrase : string) (st : locals) : M unit :=
  print "<!DOCTYPE html>";;
  print "<html>";;
  print ("<head><title>" +:+ Py.str code +:+ " " +:+ phrase +:+ "</title></head>");;
  print "<body>";;
  print ("<h1>" +:+ Py.str code +:+ " " +:+ phrase +:+ "</h1>");;
  print ("<p>CGI script returned status code " +:+ Py.str code +:+ "</p>");;
  match redirect_target st with
  | Some url =>
      print ("<p>Redirect to: <a href='" +:+ url +:+ "'>" +:+ url +:+ "</a></p>")
  | None => mret tt
  end;;
  print "</body>";;
  print "</html>".

(** The loop over the parameters, from the initial values of the local
    variables. *)
Definition parse_query (query : string) : M locals :=
  for_each (Py.split "&" query) parse_param (Locals 200 None).

Definition main (environ : gmap string string) : M unit :=
  let query := environ_get environ "QUERY_STRING" "" in
  st ← parse_query query;
  let phrase := default "Unknown" (phrases !! status_code st) in
  output_headers (status_code st) phrase st;;
  output_body (status_code st) phrase st.

(** The run of a request with the given query string: how [main] ends and
    what it has written. *)
Definition output (query : string) : result unit * string :=
  let '(r, w) := run (main {[ "QUERY_STRING" := query ]}) (inr "") in
  (r, stdout (w_trace w)).

End Status.

(** ** [slow.py] *)

Module Slow.

(** The body of [for param in query.split('&')]; the local variable is
    [sleep_time]. *)
Definition parse_param (sleep_time : Z) (param : string) : M Z :=
  if Py.startswith "sleep=" param then
    try_except
      (value ← index (Py.split "=" param) 1; int value)
      is_ValueError
      (fun _ => mret sleep_time)
  else mret sleep_time.

(** The sleep duration: 60 seconds unless the query sets another. *)
Definition parse_query (query : string) : M Z :=
  if Py.truthy query then for_each (Py.split "&" query) parse_param 60
  else mret 60.

Definition main (sleep_max : Z) (environ : gmap string string) : M unit :=
  let query := environ_get environ "QUERY_STRING" "" in
  sleep_time ← parse_query query;
  time_sleep sleep_max sleep_time;;
  print ("Content-Type: text/plain" +:+ Py.CR);;
  print Py.CR;;
  print ("Slept for " +:+ Py.str sleep_time +:+ " seconds");;
  print "This should not appear if timeout is working!".

(** The run of a request with the given query string. *)
Definition run_query (sleep_max : Z) (query : string) : result unit * world :=
  run (main sleep_max {[ "QUERY_STRING" := query ]}) (inr "").

End Slow.

(** ** [test.py] *)

Module Test.

Definition cgi_vars : list string :=
  [ "REQUEST_METHOD"; "QUERY_STRING"; "CONTENT_TYPE"; "CONTENT_LENGTH";
    "SCRIPT_NAME"; "SCRIPT_FILENAME"; "PATH_INFO"; "SERVER_PROTOCOL";
    "SERVER_NAME"; "SERVER_PORT"; "GATEWAY_INTERFACE"; "HTTP_HOST";
    "HTTP_USER_AGENT" ].

(** Step 1: the headers. *)
Definition output_headers : M unit :=
  print ("Content-Type: text/html" +:+ Py.CR);;
  print Py.CR.

(** Steps 2 and 3: the page opens, the environment is listed. *)
Definition output_environment (environ : gmap string string) : M unit :=
  print "<!DOCTYPE html>";;
  print "<html>";;
  print "<head><title>CGI Test</title></head>";;
  print "<body>";;
  print "<h1>CGI Test Script - Python</h1>";;
  print "<p>If you see this, CGI execution is working!</p>";;
  print "<h2>Environment Variables</h2>";;
  print "<table border='1'>";;
  print "<tr><th>Variable</th><th>Value</th></tr>";;
  for_ cgi_vars (fun var =>
    let value := environ_get environ var "<not set>" in
    print ("<tr><td>" +:+ var +:+ "</td><td>" +:+ value +:+ "</td></tr>"));;
  print "</table>".

(** The body of [for pair in query_string.split('&')]. *)
Definition output_pair (pair : string) : M unit :=
  if Py.contains "=" pair then
    match Py.split1 "=" pair with
    | [key; value] =>
        print ("<tr><td>" +:+ key +:+ "</td><td>" +:+ value +:+ "</td></tr>")
    | _ => raise (Exn ValueError (Message "not enough values to unpack (expected 2, got 1)"))
    end
  else print ("<tr><td>" +:+ pair +:+ "</td><td><em>no value</em></td></tr>").

(** Step 4: the query string. *)
Definition output_query (environ : gmap string string) : M unit :=
  print "<h2>Query String Parameters</h2>";;
  let query_string := environ_get environ "QUERY_STRING" "" in
  if Py.truthy query_string then
    print "<table border='1'>";;
    print "<tr><th>Parameter</th><th>Value</th></tr>";;
    for_ (Py.split "&" query_string) output_pair;;
    print "</table>"
  else
    print "<p><em>No query string provided</em></p>";;
    print "<p>Try: <code>?name=World&count=42</code></p>".

(** Step 5: the body of a POST request. *)
Definition output_post_body (read_ok : Z -> bool) (environ : gmap string string)
    : M unit :=
  print "<h2>POST Body</h2>";;
  let method := environ_get environ "REQUEST_METHOD" "GET" in
  let content_length := environ_get environ "CONTENT_LENGTH" "" in
  if String.eqb method "POST" && Py.truthy content_length then
    try_except
      (length ← int content_length;
       body ← stdin_read read_ok length;
       print ("<p>Received " +:+ Py.str (Py.len body) +:+ " bytes:</p>");;
       print ("<pre>" +:+ body +:+ "</pre>"))
      is_Exception
      (fun e => print ("<p>Error reading body: " +:+ exn_str e +:+ "</p>"))
  else print "<p><em>No POST body (GET request or no Content-Length)</em></p>".

Definition output_close : M unit :=
  print "</body>";;
  print "</html>".

Definition main (read_ok : Z -> bool) (environ : gmap string string) : M unit :=
  output_headers;;
  output_environment environ;;
  output_query environ;;
  output_post_body read_ok environ;;
  output_close.

End Test.

(** ** [slow_client.py] *)

Module SlowClient.

Definition HOST : string := "127.0.0.1".
Definition PORT : Z := 8080.

Definition request : string :=
  "GET /large.bin HTTP/1.1" +:+ Py.CR +:+ Py.LF
  +:+ "Host: localhost" +:+ Py.CR +:+ Py.LF
  +:+ "Connection: close" +:+ Py.CR +:+ Py.LF +:+ Py.CR +:+ Py.LF.

(** What the client does, in order.  [Recv] records the size asked for and
    the bytes obtained; [SleepMs] a pause in milliseconds. *)
Inductive action :=
  | Connect (host : string) (port : Z)
  | SendAll (data : string)
  | Recv (bufsize : nat) (data : string)
  | Print (text : string)
  | SleepMs (milliseconds : Z)
  | Close.

(** The connection as the client sees it: the segments of the response
    that arrive one after the other; when none is left the peer has closed
    the connection. *)
Definition connection : Type := list string.

(** [s.recv(bufsize)]: at most [bufsize] bytes of the segment that has
    arrived; the empty string once the peer has closed. *)
Fixpoint recv (bufsize : nat) (conn : connection) : string * connection :=
  match conn with
  | [] => ("", [])
  | segment :: later =>
      if Py.truthy segment then
        let rest := Py.drop bufsize segment in
        (Py.take bufsize segment, if Py.truthy rest then rest :: later else later)
      else recv bufsize later
  end.

Record state := State { conn : connection; total_bytes : Z; log : list action }.

(** The loop [while True]; [fuel] bounds the number of iterations, and
    [None] means that this many did not reach the [break]. *)
Fixpoint read_loop (fuel : nat) (st : state) : option state :=
  match fuel with
  | O => None
  | S fuel' =>
      let '(data, conn') := recv 1024 (conn st) in
      let received := log st ++ [Recv 1024 data] in
      if negb (Py.truthy data) then Some (State conn' (total_bytes st) received)
      else
        let total := total_bytes st + Py.len data in
        read_loop fuel'
          (State conn' total
             (received
              ++ [Print (Py.CR +:+ "Received " +:+ Py.str total +:+ " bytes...");
                  SleepMs 50]))
  end.

(** The whole script, run against a server that sends [response]. *)
Definition client (fuel : nat) (response : connection) : option state :=
  let start :=
    State response 0
      [Connect HOST PORT; SendAll request;
       Print ("Request sent. Reading slowly..." +:+ Py.LF)] in
  st ← read_loop fuel start;
  Some (State (conn st) (total_bytes st) (log st ++ [Close])).

(** The chunks obtained by the [recv] calls of a log. *)
Fixpoint chunks (actions : list action) : list string :=
  match actions with
  | [] => []
  | Recv _ data :: rest => data :: chunks rest
  | _ :: rest => chunks rest
  end.

(** The sum of the lengths of some byte strings. *)
Definition total_length (segments : list string) : Z :=
  foldr (fun segment n => Py.len segment + n) 0 segments.

(** The bytes of some byte strings, in order. *)
Definition bytes (segments : list string) : string :=
  foldr String.append "" segments.

(** The log of the iterations that receive the given chunks, from a
    count of [total] bytes: each chunk is received, the new count is
    printed, and the client sleeps 50 milliseconds. *)
Fixpoint reads_log (total : Z) (received : list string) : list action :=
  match received with
  | [] => []
  | data :: rest =>
      Recv 1024 data
      :: Print (Py.CR +:+ "Received " +:+ Py.str (total + Py.len data) +:+ " bytes...")
      :: SleepMs 50
      :: reads_log (total + Py.len data) rest
  end.

(** A bound on the number of [recv] calls that a connection can serve. *)
Definition pending (conn : connection) : nat :=
  foldr (fun segment n => S (String.length segment + n)) O conn.

End SlowClient.

(** ** The framing of CGI output

    Section 6 of the specification: a header block, one [Name: value] pair
    per line, then one blank line, then the body. *)

Module Cgi.

Definition CRLF : string := Py.CR +:+ Py.LF.

Definition header_line (header : string * string) : string :=
  fst header +:+ ": " +:+ snd header +:+ CRLF.

Fixpoint header_block (headers : list (string * string)) : string :=
  match headers with
  | [] => ""
  | header :: rest => header_line header +:+ header_block rest
  end.

(** Neither a carriage return nor a newline occurs in [s]. *)
Definition no_newline (s : string) : bool :=
  negb (Py.contains "013" s) && negb (Py.contains "010" s).

(** A header that stays on its line: a name that is not empty and has no
    colon, and no line break in the name or in the value. *)
Definition header_ok (header : string * string) : bool :=
  Py.truthy (fst header) && no_newline (fst header)
  && negb (Py.contains ":" (fst header)) && no_newline (snd header).

(** Where a reader of the output stands in the current line: at its
    start, after a carriage return that opens it, or further in. *)
Inductive position := LineStart | AfterCR | InLine.

(** What follows the first blank line (a line that is empty, or that
    holds a carriage return only); [None] when there is no blank line. *)
Fixpoint body_after (pos : position) (out : string) : option string :=
  match out with
  | EmptyString => None
  | String c rest =>
      if Ascii.eqb c "010" then
        match pos with
        | LineStart | AfterCR => Some rest
        | InLine => body_after LineStart rest
        end
      else if Ascii.eqb c "013" then
        match pos with
        | LineStart => body_after AfterCR rest
        | AfterCR | InLine => body_after InLine rest
        end
      else body_after InLine rest
  end.

Definition body_of (out : string) : option string := body_after LineStart out.

(** [out] is the block of the headers [headers], each on a line that ends
    with carriage return and newline, then one blank line, then [body]. *)
Definition framed (out : string) (headers : list (string * string)) (body : string) : Prop :=
  forallb header_ok headers = true
  /\ out = header_block headers +:+ CRLF +:+ body.

End Cgi.

(** ** A process that is stopped *)

Module Supervisor.

(** The output a process has written when [elapsed] seconds have passed,
    which is what one who stops it then can have received: the writes that
    come before the sleep during which that moment falls. *)
Fixpoint partial_output (elapsed : Z) (trace : list event) : string :=
  match trace with
  | [] => ""
  | Write data :: rest => data +:+ partial_output elapsed rest
  | Sleep seconds :: rest =>
      if seconds <? elapsed then partial_output (elapsed - seconds) rest else ""
  end.

End Supervisor.

(** ** The loops read as functions

    What the loops over the query compute, without the monad; the lemmas
    below show that the scripts compute just this. *)

(** [s.split(sep)[0]]: the text before the first separator. *)
Definition before (sep : ascii) (s : string) : string :=
  match Py.split sep s with field :: _ => field | [] => "" end.

(** [param.split('=')[1]], when there is such a field. *)
Definition param_value (param : string) : option string := Py.split "=" param !! 1%nat.

Module StatusPure.

Definition step (st : Status.locals) (param : string) : Status.locals :=
  if Py.startswith "code=" param then
    match param_value param ≫= Py.int with
    | Some code => Status.Locals code (Status.redirect_url st)
    | None => st
    end
  else if Py.startswith "redirect=" param then
    match param_value param with
    | Some value => Status.Locals (Status.status_code st) (Some value)
    | None => st
    end
  else st.

Definition parsed (query : string) : Status.locals :=
  fold_left step (Py.split "&" query) (Status.Locals 200 None).

(** The integer that a parameter assigns to [status_code], when it
    assigns one: a parameter that starts with [code=] and whose value
    [int] accepts. *)
Definition assigned_code (param : string) : option Z :=
  if Py.startswith "code=" param then param_value param ≫= Py.int else None.

(** The string that a parameter assigns to [redirect_url], when it
    assigns one. *)
Definition assigned_redirect (param : string) : option string :=
  if Py.startswith "code=" param then None
  else if Py.startswith "redirect=" param then param_value param
  else None.

Definition phrase (code : Z) : string := default "Unknown" (Status.phrases !! code).

(** The first line of the output for a status code, with its line end. *)
Definition status_line (code : Z) : string :=
  "Status: " +:+ Py.str code +:+ " " +:+ phrase code +:+ Py.CR +:+ Py.LF.

(** The header block and the body that [main] prints for local variables
    [st]. *)
Definition headers (st : Status.locals) : list (string * string) :=
  [("Status", Py.str (Status.status_code st) +:+ " " +:+ phrase (Status.status_code st))]
  ++ match Status.redirect_target st with
     | Some url => [("Location", url)]
     | None => []
     end
  ++ [("Content-Type", "text/html")].

Definition body (st : Status.locals) : string :=
  let code := Status.status_code st in
  stdout (w_trace (snd (run (Status.output_body code (phrase code) st) (inr "")))).

End StatusPure.

Module SlowPure.

Definition step (sleep_time : Z) (param : string) : Z :=
  if Py.startswith "sleep=" param then
    match param_value param ≫= Py.int with
    | Some seconds => seconds
    | None => sleep_time
    end
  else sleep_time.

Definition sleep_time (query : string) : Z :=
  if Py.truthy query then fold_left step (Py.split "&" query) 60 else 60.

(** The duration that a parameter assigns to [sleep_time], when it
    assigns one. *)
Definition assigned_sleep (param : string) : option Z :=
  if Py.startswith "sleep=" param then param_value param ≫= Py.int else None.

End SlowPure.


(** A computation that only writes: it returns, leaves standard input as
    it is, and extends the trace. *)
Definition writes (m : M unit) : Prop :=
  forall w, exists events,
    m w = (Return tt, World (w_stdin w) (w_trace w ++ events)).

Module TestPure.

(** The line that reports an exception. *)
Definition error_line (e : exn) : event :=
  Write ("<p>Error reading body: " +:+ exn_str e +:+ "</p>" +:+ Py.LF).

(** [sys.stdin.read(size)] read as a function: the exception, or the text
    read and what is left of standard input. *)
Definition read (read_ok : Z -> bool) (size : Z) (stdin : exn + string)
    : exn + string * (exn + string) :=
  if (size <? Py.ssize_t_min) || (Py.ssize_t_max <? size) then
    inl (Exn OverflowError (Message "cannot fit 'int' into an index-sized integer"))
  else if size =? 0 then inr ("", stdin)
  else if (0 <? size) && negb (read_ok size) then inl (Exn MemoryError (Message ""))
  else
    match stdin with
    | inl e => inl e
    | inr text =>
        if size <? 0 then inr (text, inr "")
        else inr (Py.take (Z.to_nat size) text, inr (Py.drop (Z.to_nat size) text))
    end.

(** Step 5 read as a function: what it leaves of standard input, and what
    it writes. *)
Definition post_body (read_ok : Z -> bool) (environ : gmap string string)
    (stdin : exn + string) : (exn + string) * list event :=
  let method := environ_get environ "REQUEST_METHOD" "GET" in
  let content_length := environ_get environ "CONTENT_LENGTH" "" in
  let heading := Write ("<h2>POST Body</h2>" +:+ Py.LF) in
  if String.eqb method "POST" && Py.truthy content_length then
    match Py.int content_length with
    | None => (stdin, [heading; error_line (int_error content_length)])
    | Some length =>
        match read read_ok length stdin with
        | inl e => (stdin, [heading; error_line e])
        | inr (body, rest) =>
            (rest,
             [heading;
              Write ("<p>Received " +:+ Py.str (Py.len body) +:+ " bytes:</p>" +:+ Py.LF);
              Write ("<pre>" +:+ body +:+ "</pre>" +:+ Py.LF)])
        end
    end
  else
    (stdin,
     [heading;
      Write ("<p><em>No POST body (GET request or no Content-Length)</em></p>" +:+ Py.LF)]).

End TestPure.

(** ** Rows and parameters *)

(** [sep.join(fields)] for a separator of one character. *)
Fixpoint join (sep : ascii) (fields : list string) : string :=
  match fields with
  | [] => ""
  | [field] => field
  | field :: rest => field +:+ String sep (join sep rest)
  end.

(** [s.split(sep, 1)[1]]: the text after the first separator, when there
    is one. *)
Definition after (sep : ascii) (s : string) : string :=
  match Py.split1 sep s with
  | [_; rest] => rest
  | _ => ""
  end.

Module TestRows.

(** The row that step 3 of [test.py] prints for a variable. *)
Definition env_row (environ : gmap string string) (var : string) : event :=
  Write ("<tr><td>" +:+ var +:+ "</td><td>"
         +:+ default "<not set>" (environ !! var) +:+ "</td></tr>" +:+ Py.LF).

(** The row that step 4 prints for a parameter of the query. *)
Definition pair_row (pair : string) : event :=
  if Py.contains "=" pair then
    Write ("<tr><td>" +:+ before "=" pair +:+ "</td><td>" +:+ after "=" pair
           +:+ "</td></tr>" +:+ Py.LF)
  else
    Write ("<tr><td>" +:+ pair +:+ "</td><td><em>no value</em></td></tr>" +:+ Py.LF).

End TestRows.

(** The time, in milliseconds, that the pauses of a log of the client
    take together. *)
Fixpoint slept (actions : list SlowClient.action) : Z :=
  match actions with
  | [] => 0
  | SlowClient.SleepMs milliseconds :: rest => milliseconds + slept rest
  | _ :: rest => slept rest
  end.

(** * Facts *)

(** ** Samples of the string functions *)

Example split_amp : Py.split "&" "a&b&" = ["a"; "b"; ""].
Proof. reflexivity. Qed.
Example split_empty : Py.split "&" "" = [""].
Proof. reflexivity. Qed.
Example split1_eq : Py.split1 "=" "a=b=c" = ["a"; "b=c"].
Proof. reflexivity. Qed.
Example int_samples :
  map Py.int ["404"; "007"; "+5"; " 5 "; "1_0"; "-0"; "1__0"; "_1"; "1_"; "- 5"; ""; "abc"]
  = [Some 404; Some 7; Some 5; Some 5; Some 10; Some 0; None; None; None; None; None; None].
Proof. reflexivity. Qed.
Example str_samples : map Py.str [404; 0; -5] = ["404"; "0"; "-5"].
Proof. vm_compute. reflexivity. Qed.

(** ** Strings *)

Section StringFacts.

Lemma str_app_nil_r (s : string) : s +:+ "" = s.
Proof. induction s as [|c s IH]; [reflexivity|]. cbv [String.append]. fold String.append. by rewrite IH. Qed.

Lemma str_app_cons (c : ascii) (s t : string) : String c s +:+ t = String c (s +:+ t).
Proof. reflexivity. Qed.

Lemma str_app_nil_l (s : string) : "" +:+ s = s.
Proof. reflexivity. Qed.

Lemma str_app_assoc (s t u : string) : (s +:+ t) +:+ u = s +:+ t +:+ u.
Proof. induction s as [|c s IH]; [reflexivity|]. rewrite !str_app_cons. by rewrite IH. Qed.

Lemma str_length_app (s t : string) :
  String.length (s +:+ t) = (String.length s + String.length t)%nat.
Proof. induction s as [|c s IH]; [reflexivity|]. rewrite str_app_cons. simpl. by rewrite IH. Qed.

Lemma take_drop (n : nat) (s : string) : Py.take n s +:+ Py.drop n s = s.
Proof.
  revert s; induction n as [|n IH]; intros [|c s]; try reflexivity.
  simpl. rewrite str_app_cons. by rewrite IH.
Qed.

Lemma length_take (n : nat) (s : string) :
  String.length (Py.take n s) = Nat.min n (String.length s).
Proof. revert s; induction n as [|n IH]; intros [|c s]; simpl; auto. Qed.

Lemma length_drop (n : nat) (s : string) :
  String.length (Py.drop n s) = (String.length s - n)%nat.
Proof. revert s; induction n as [|n IH]; intros [|c s]; simpl; auto. Qed.

Lemma truthy_length (s : string) : Py.truthy s = true <-> (0 < String.length s)%nat.
Proof. destruct s; simpl; split; intros; try lia; try discriminate; auto. Qed.

Lemma truthy_false (s : string) : Py.truthy s = false <-> s = "".
Proof. destruct s; simpl; split; intros; try discriminate; auto. Qed.

Lemma prefix_app (a s : string) :
  String.prefix a s = true <-> exists t, s = a +:+ t.
Proof.
  revert s; induction a as [|c a IH]; intros s; simpl.
  - split; [intros _; by exists s|]. by destruct s.
  - destruct s as [|d s].
    + split; [discriminate|]. intros [t Ht]. discriminate.
    + simpl. destruct (ascii_dec c d) as [->|Hne].
      * rewrite IH. split; intros [t Ht]; exists t.
        -- rewrite str_app_cons. by rewrite Ht.
        -- rewrite str_app_cons in Ht. by injection Ht.
      * split; [discriminate|]. intros [t Ht]. rewrite str_app_cons in Ht.
        injection Ht as Hc _. congruence.
Qed.

Lemma split_nonempty (sep : ascii) (s : string) :
  exists field fields, Py.split sep s = field :: fields.
Proof.
  induction s as [|c s (f & fs & IH)]; simpl; [by eauto|].
  destruct (Ascii.eqb c sep); [by eauto|]. rewrite IH. eauto.
Qed.

Lemma contains_app (sep : ascii) (s t : string) :
  Py.contains sep (s +:+ t) = Py.contains sep s || Py.contains sep t.
Proof.
  induction s as [|c s IH]; [reflexivity|]. rewrite str_app_cons. simpl.
  rewrite IH. by rewrite orb_assoc.
Qed.

(** No field of a split holds the separator. *)
Lemma split_fields_free (sep : ascii) (s field : string) :
  field ∈ Py.split sep s -> Py.contains sep field = false.
Proof.
  revert field; induction s as [|c s IH]; intros field; simpl.
  - intros ->%list_elem_of_singleton. reflexivity.
  - destruct (Ascii.eqb c sep) eqn:Hc.
    + intros [->|Hin]%elem_of_cons; [reflexivity|by apply IH].
    + destruct (split_nonempty sep s) as (f & fs & Hs). rewrite Hs in IH |- *.
      intros [->|Hin]%elem_of_cons.
      * simpl. rewrite Hc. apply IH. left.
      * apply IH. by right.
Qed.

(** A character that a string does not hold is in none of its fields. *)
Lemma split_fields_without (sep c : ascii) (s field : string) :
  Py.contains c s = false -> field ∈ Py.split sep s -> Py.contains c field = false.
Proof.
  revert field; induction s as [|d s IH]; intros field; simpl.
  - intros _ ->%list_elem_of_singleton. reflexivity.
  - intros [Hd Hs]%orb_false_elim. specialize (fun f => IH f Hs).
    destruct (Ascii.eqb d sep).
    + intros [->|Hin]%elem_of_cons; [reflexivity|by apply IH].
    + destruct (split_nonempty sep s) as (f & fs & Hsp). rewrite Hsp in IH |- *.
      intros [->|Hin]%elem_of_cons.
      * simpl. rewrite Hd. apply IH. left.
      * apply IH. by right.
Qed.

End StringFacts.

Create Rewrite HintDb str.
#[global] Hint Rewrite str_app_cons str_app_nil_l str_app_assoc str_app_nil_r : str.

(** ** Running the scripts *)

Section RunFacts.

Lemma split_app (sep : ascii) (a t : string) :
  Py.contains sep a = false ->
  Py.split sep (a +:+ String sep t) = a :: Py.split sep t.
Proof.
  induction a as [|c a IH].
  - intros _. change ("" +:+ String sep t) with (String sep t).
    simpl. by rewrite Ascii.eqb_refl.
  - simpl. intros [Hc Ha]%orb_false_elim.
    change (String c a +:+ String sep t) with (String c (a +:+ String sep t)).
    simpl. rewrite Hc. by rewrite (IH Ha).
Qed.

Lemma param_value_key (key t : string) :
  Py.contains "=" key = false ->
  param_value (key +:+ "=" +:+ t) = Some (before "=" t).
Proof.
  intros Hkey. unfold param_value, before.
  change ("=" +:+ t) with (String "=" t). rewrite (split_app _ _ _ Hkey).
  destruct (split_nonempty "=" t) as (f & fs & ->). reflexivity.
Qed.

(** A parameter that starts with [key=] has a field of index 1. *)
Lemma param_value_startswith (key param : string) :
  Py.contains "=" key = false ->
  Py.startswith (key +:+ "=") param = true ->
  exists t, param = key +:+ "=" +:+ t /\ param_value param = Some (before "=" t).
Proof.
  intros Hkey [t ->]%prefix_app. exists t. rewrite str_app_assoc.
  split; [reflexivity|]. by apply param_value_key.
Qed.

Lemma int_error_is_ValueError (s : string) : is_ValueError (int_error s) = true.
Proof. unfold int_error. by destruct (Py.int_parse s). Qed.

Ltac run_monad :=
  unfold try_except, mbind, M_bind, bind, index, int, mret, M_ret, ret, raise.

Lemma status_parse_param_run (st : Status.locals) (param : string) (w : world) :
  Status.parse_param st param w = (Return (StatusPure.step st param), w).
Proof.
  unfold Status.parse_param, StatusPure.step.
  destruct (Py.startswith "code=" param) eqn:Hcode.
  - destruct (param_value_startswith "code" param eq_refl Hcode) as (t & _ & Hv).
    rewrite Hv. unfold param_value in Hv. run_monad. rewrite Hv. simpl.
    destruct (Py.int (before "=" t)); [reflexivity|].
    by rewrite int_error_is_ValueError.
  - destruct (Py.startswith "redirect=" param) eqn:Hred; [|reflexivity].
    destruct (param_value_startswith "redirect" param eq_refl Hred) as (t & _ & Hv).
    rewrite Hv. unfold param_value in Hv. run_monad. by rewrite Hv.
Qed.

Lemma for_each_pure {A S} (body : S -> A -> M S) (step : S -> A -> S) :
  (forall st x w, body st x w = (Return (step st x), w)) ->
  forall xs st w, for_each xs body st w = (Return (fold_left step xs st), w).
Proof.
  intros Hbody xs; induction xs as [|x xs IH]; intros st w; simpl; [reflexivity|].
  run_monad. rewrite Hbody. apply IH.
Qed.

Lemma status_parse_query_run (query : string) (w : world) :
  Status.parse_query query w = (Return (StatusPure.parsed query), w).
Proof. apply for_each_pure, status_parse_param_run. Qed.

Lemma slow_parse_param_run (sleep_time : Z) (param : string) (w : world) :
  Slow.parse_param sleep_time param w = (Return (SlowPure.step sleep_time param), w).
Proof.
  unfold Slow.parse_param, SlowPure.step.
  destruct (Py.startswith "sleep=" param) eqn:Hsleep; [|reflexivity].
  destruct (param_value_startswith "sleep" param eq_refl Hsleep) as (t & _ & Hv).
  rewrite Hv. unfold param_value in Hv. run_monad. rewrite Hv. simpl.
  destruct (Py.int (before "=" t)); [reflexivity|].
  by rewrite int_error_is_ValueError.
Qed.

Lemma slow_parse_query_run (query : string) (w : world) :
  Slow.parse_query query w = (Return (SlowPure.sleep_time query), w).
Proof.
  unfold Slow.parse_query, SlowPure.sleep_time.
  destruct (Py.truthy query); [|reflexivity].
  apply for_each_pure, slow_parse_param_run.
Qed.

End RunFacts.

Section StatusFacts.

Lemma environ_get_query (query name fallback : string) :
  environ_get {[ "QUERY_STRING" := query ]} "QUERY_STRING" fallback = query.
Proof. unfold environ_get. by rewrite lookup_singleton_eq. Qed.

Ltac run_prints :=
  unfold print, emit, mbind, M_bind, bind, mret, M_ret, ret; simpl.

(** What [main] writes: the header block of the parsed query, the blank
    line, the body. *)
Lemma status_output (query : string) :
  Status.output query
  = (Return tt,
     Cgi.header_block (StatusPure.headers (StatusPure.parsed query))
     +:+ Cgi.CRLF +:+ StatusPure.body (StatusPure.parsed query)).
Proof.
  unfold Status.output, run, Status.main.
  rewrite (environ_get_query query "QUERY_STRING" "").
  unfold mbind at 1, M_bind at 1, bind at 1. rewrite status_parse_query_run.
  set (st := StatusPure.parsed query).
  unfold StatusPure.headers, StatusPure.body, StatusPure.phrase, run.
  unfold Status.output_headers, Status.output_body.
  destruct (Status.redirect_target st) as [url|]; run_prints;
    unfold Cgi.header_line, Cgi.CRLF; simpl;
    rewrite ?str_app_assoc, ?str_app_nil_r; reflexivity.
Qed.

End StatusFacts.

Section StatusCode.

Lemma status_step_code (st : Status.locals) (param : string) :
  Status.status_code (StatusPure.step st param)
  = default (Status.status_code st) (StatusPure.assigned_code param).
Proof.
  unfold StatusPure.step, StatusPure.assigned_code.
  destruct (Py.startswith "code=" param).
  - destruct (param_value param ≫= Py.int); reflexivity.
  - destruct (Py.startswith "redirect=" param); [|reflexivity].
    destruct (param_value param); reflexivity.
Qed.

Lemma status_fold_code_unassigned (params : list string) (st : Status.locals) :
  Forall (fun param => StatusPure.assigned_code param = None) params ->
  Status.status_code (fold_left StatusPure.step params st) = Status.status_code st.
Proof.
  intros Hall; revert st; induction Hall as [|param params Hp _ IH]; intros st;
    simpl; [reflexivity|].
  rewrite IH, status_step_code. by rewrite Hp.
Qed.

Lemma status_parsed_code (query : string) (earlier later : list string)
    (param : string) (code : Z) :
  Py.split "&" query = earlier ++ param :: later ->
  StatusPure.assigned_code param = Some code ->
  Forall (fun later_param => StatusPure.assigned_code later_param = None) later ->
  Status.status_code (StatusPure.parsed query) = code.
Proof.
  intros Hsplit Hcode Hlater. unfold StatusPure.parsed. rewrite Hsplit.
  rewrite fold_left_app. simpl.
  rewrite (status_fold_code_unassigned _ _ Hlater), status_step_code.
  by rewrite Hcode.
Qed.

Lemma status_output_first_line (query : string) :
  exists rest,
    Status.output query
    = (Return tt,
       StatusPure.status_line (Status.status_code (StatusPure.parsed query)) +:+ rest).
Proof.
  rewrite status_output. unfold StatusPure.headers. simpl Cgi.header_block.
  unfold Cgi.header_line, Cgi.CRLF, StatusPure.status_line; simpl fst; simpl snd.
  eexists. f_equal. rewrite !str_app_assoc. reflexivity.
Qed.

End StatusCode.

Section StatusClaims.

Lemma split_without (sep : ascii) (s : string) :
  Py.contains sep s = false -> Py.split sep s = [s].
Proof.
  induction s as [|c s IH]; simpl; [reflexivity|].
  intros [-> Hs]%orb_false_elim. by rewrite (IH Hs).
Qed.

Lemma before_without (sep : ascii) (s : string) :
  Py.contains sep s = false -> before sep s = s.
Proof. intros Hs. unfold before. by rewrite (split_without _ _ Hs). Qed.

Lemma assigned_code_literal (literal : string) :
  Py.contains "=" literal = false ->
  StatusPure.assigned_code ("code=" +:+ literal) = Py.int literal.
Proof.
  intros Hlit. unfold StatusPure.assigned_code.
  assert (Py.startswith "code=" ("code=" +:+ literal) = true) as ->.
  { apply prefix_app. by exists literal. }
  change ("code=" +:+ literal) with ("code" +:+ "=" +:+ literal).
  rewrite (param_value_key "code" literal eq_refl). simpl.
  by rewrite (before_without _ _ Hlit).
Qed.

(** A parameter assigns no status code when it does not start with
    [code=] or when [int] rejects its value. *)
Lemma assigned_code_none (param : string) :
  (Py.startswith "code=" param = true ->
   forall value, param_value param = Some value -> Py.int value = None) ->
  StatusPure.assigned_code param = None.
Proof.
  intros Hparam. unfold StatusPure.assigned_code.
  destruct (Py.startswith "code=" param); [|reflexivity].
  destruct (param_value param) as [value|]; [|reflexivity].
  simpl. by apply Hparam.
Qed.

Lemma assigned_code_none_all (params : list string) :
  (forall param value, param ∈ params -> Py.startswith "code=" param = true ->
     param_value param = Some value -> Py.int value = None) ->
  Forall (fun param => StatusPure.assigned_code param = None) params.
Proof.
  intros Hall. apply Forall_forall. intros param Hin.
  apply assigned_code_none. intros Hstart value Hvalue. by apply (Hall param value).
Qed.

Lemma phrase_unknown (code : Z) :
  code ∉ [200; 201; 204; 301; 302; 400; 403; 404; 500] ->
  StatusPure.phrase code = "Unknown".
Proof.
  intros Hcode. unfold StatusPure.phrase.
  assert (Status.phrases !! code = None) as ->; [|reflexivity].
  apply not_elem_of_list_to_map_1. exact Hcode.
Qed.

Example phrase_404 : StatusPure.phrase 404 = "Not Found".
Proof. reflexivity. Qed.

Example phrases_nine : size Status.phrases = 9%nat.
Proof. reflexivity. Qed.

(** C5.  For the query string [code=302&redirect=/new-page], [status.py]
    ends normally; its output starts with the line [Status: 302 Found]; the
    header block is [Status: 302 Found], [Location: /new-page] and
    [Content-Type: text/html], followed by the blank line; and the body,
    which is what comes after the first blank line, holds an anchor whose
    target and text are [/new-page]. *)
Theorem status_redirect_scenario :
  let out := Status.output "code=302&redirect=/new-page" in
  fst out = Return tt
  /\ Py.startswith ("Status: 302 Found" +:+ Cgi.CRLF) (snd out) = true
  /\ exists body,
       Cgi.framed (snd out)
         [("Status", "302 Found"); ("Location", "/new-page");
          ("Content-Type", "text/html")] body
       /\ Cgi.body_of (snd out) = Some body
       /\ Py.occurs "<a href='/new-page'>/new-page</a>" body = true.
Proof.
  split; [reflexivity|]. split; [reflexivity|].
  exists (StatusPure.body (StatusPure.parsed "code=302&redirect=/new-page")).
  split; [split; reflexivity|]. split; reflexivity.
Qed.

(** C2, as stated, fails: the query [code=404&code=500] contains the
    parameter [code=404], and the first line of the output is
    [Status: 500 Internal Server Error], not [Status: 404 Not Found]. *)
Lemma status_code_overwritten :
  Py.split "&" "code=404&code=500" = ["code=" +:+ Py.str 404; "code=500"]
  /\ Py.startswith (StatusPure.status_line 404) (snd (Status.output "code=404&code=500")) = false
  /\ Py.startswith ("Status: 500 Internal Server Error" +:+ Cgi.CRLF)
       (snd (Status.output "code=404&code=500")) = true.
Proof. repeat split; reflexivity. Qed.

(** C2, amended.  When a parameter of the query is [code=] followed by a
    literal without [=] that [int] reads as [code], and no later parameter
    that starts with [code=] has, between its first [=] and its next [=]
    or its end, a text that [int] accepts (this text, [param.split('=')[1]],
    is all that the script looks at), [status.py] ends normally and its
    first output line is [Status: code phrase], with the code in decimal
    and the phrase of the table, or [Unknown] for a code that is not one of
    the nine of the table; no code is rejected. *)
Theorem status_code_passthrough (query : string) (earlier later : list string)
    (literal : string) (code : Z) :
  Py.split "&" query = earlier ++ ("code=" +:+ literal) :: later ->
  Py.contains "=" literal = false ->
  Py.int literal = Some code ->
  (forall param value, param ∈ later -> Py.startswith "code=" param = true ->
     param_value param = Some value -> Py.int value = None) ->
  (exists rest,
     Status.output query
     = (Return tt,
        "Status: " +:+ Py.str code +:+ " " +:+ StatusPure.phrase code
        +:+ Cgi.CRLF +:+ rest))
  /\ StatusPure.phrase code = default "Unknown" (Status.phrases !! code)
  /\ (code ∉ [200; 201; 204; 301; 302; 400; 403; 404; 500] ->
      StatusPure.phrase code = "Unknown").
Proof.
  intros Hsplit Hlit Hint Hlater. split; [|split; [reflexivity|apply phrase_unknown]].
  destruct (status_output_first_line query) as [rest Hout]. exists rest.
  rewrite Hout. f_equal.
  rewrite (status_parsed_code query earlier later _ code Hsplit).
  - unfold StatusPure.status_line, Cgi.CRLF. by rewrite !str_app_assoc.
  - by rewrite (assigned_code_literal _ Hlit).
  - by apply assigned_code_none_all.
Qed.

Lemma status_code_passthrough_witness :
  Py.split "&" "code=999&redirect=/x" = [] ++ ("code=" +:+ "999") :: ["redirect=/x"]
  /\ exists rest,
       Status.output "code=999&redirect=/x"
       = (Return tt, "Status: " +:+ Py.str 999 +:+ " " +:+ StatusPure.phrase 999
                     +:+ Cgi.CRLF +:+ rest).
Proof.
  split; [reflexivity|].
  apply (status_code_passthrough "code=999&redirect=/x" [] ["redirect=/x"] "999" 999);
    [reflexivity|reflexivity|reflexivity|].
  intros param value ->%list_elem_of_singleton Hstart. discriminate Hstart.
Defined.

(** C8, as stated, fails: in the query [code=404=x] the value of the
    [code=] parameter is [404=x], which is not an integer, and the first
    line of the output is [Status: 404 Not Found], not [Status: 200 OK]:
    the script converts the text up to the second [=] only. *)
Lemma status_code_before_equals :
  Py.split "&" "code=404=x" = ["code=" +:+ "404=x"]
  /\ Py.int "404=x" = None
  /\ param_value "code=404=x" = Some "404"
  /\ fst (Status.output "code=404=x") = Return tt
  /\ Py.startswith ("Status: 200 OK" +:+ Cgi.CRLF) (snd (Status.output "code=404=x")) = false
  /\ Py.startswith ("Status: 404 Not Found" +:+ Cgi.CRLF)
       (snd (Status.output "code=404=x")) = true.
Proof. repeat split; reflexivity. Qed.

(** C8, amended.  When every parameter of the query that starts with
    [code=] has, between its first [=] and its next [=] or its end, a text
    that [int] rejects (the empty text is one), [status.py] ends normally,
    without an error, and its first output line is [Status: 200 OK]: the
    status code keeps its initial value 200. *)
Theorem status_malformed_code (query : string) :
  (forall param value, param ∈ Py.split "&" query ->
     Py.startswith "code=" param = true ->
     param_value param = Some value -> Py.int value = None) ->
  Status.status_code (StatusPure.parsed query) = 200
  /\ exists rest,
       Status.output query = (Return tt, "Status: 200 OK" +:+ Cgi.CRLF +:+ rest).
Proof.
  intros Hall. apply assigned_code_none_all in Hall.
  assert (Status.status_code (StatusPure.parsed query) = 200) as Hcode.
  { unfold StatusPure.parsed. by rewrite (status_fold_code_unassigned _ _ Hall). }
  split; [exact Hcode|].
  destruct (status_output_first_line query) as [rest Hout]. exists rest.
  rewrite Hout, Hcode. reflexivity.
Qed.

Lemma status_malformed_code_witness :
  exists rest,
    Status.output "code=&x=1&code=4o4"
    = (Return tt, "Status: 200 OK" +:+ Cgi.CRLF +:+ rest).
Proof.
  apply (status_malformed_code "code=&x=1&code=4o4").
  intros param value Hin Hstart Hvalue. simpl in Hin.
  repeat (apply elem_of_cons in Hin as [->|Hin]);
    first [discriminate Hstart | by injection Hvalue as <- | by apply elem_of_nil in Hin].
Defined.

End StatusClaims.

(** ** The framing of the output *)

Section Framing.

Lemma no_newline_app (s t : string) :
  Cgi.no_newline (s +:+ t) = Cgi.no_newline s && Cgi.no_newline t.
Proof.
  unfold Cgi.no_newline. rewrite !contains_app.
  destruct (Py.contains "013" s), (Py.contains "010" s),
    (Py.contains "013" t), (Py.contains "010" t); reflexivity.
Qed.

Lemma no_newline_cons (c : ascii) (s : string) :
  Cgi.no_newline (String c s)
  = negb (Ascii.eqb c "013") && negb (Ascii.eqb c "010") && Cgi.no_newline s.
Proof.
  unfold Cgi.no_newline. simpl.
  destruct (Ascii.eqb c "013"), (Ascii.eqb c "010"), (Py.contains "013" s),
    (Py.contains "010" s); reflexivity.
Qed.

(** Within a line, text without line breaks and its line end lead to the
    start of the next line. *)
Lemma body_after_line (s rest : string) :
  Cgi.no_newline s = true ->
  Cgi.body_after Cgi.InLine (s +:+ Cgi.CRLF +:+ rest)
  = Cgi.body_after Cgi.LineStart rest.
Proof.
  induction s as [|c s IH].
  - intros _. reflexivity.
  - rewrite no_newline_cons. intros [[Hcr Hlf]%andb_prop Hs]%andb_prop.
    rewrite str_app_cons. simpl.
    apply negb_true_iff in Hcr, Hlf. rewrite Hcr, Hlf. by apply IH.
Qed.

Lemma body_after_header (header : string * string) (rest : string) :
  Cgi.header_ok header = true ->
  Cgi.body_after Cgi.LineStart (Cgi.header_line header +:+ rest)
  = Cgi.body_after Cgi.LineStart rest.
Proof.
  destruct header as [name value]. unfold Cgi.header_ok, Cgi.header_line. simpl.
  intros [[[Hname Hnl]%andb_prop _]%andb_prop Hvalue]%andb_prop.
  destruct name as [|c name]; [discriminate|].
  rewrite no_newline_cons in Hnl.
  apply andb_prop in Hnl as [[Hcr Hlf]%andb_prop Hnl].
  apply negb_true_iff in Hcr, Hlf.
  rewrite !str_app_cons. simpl. rewrite Hcr, Hlf.
  rewrite <- (body_after_line (name +:+ ": " +:+ value) rest).
  - by autorewrite with str.
  - rewrite !no_newline_app, Hnl, Hvalue. reflexivity.
Qed.

(** In framed output the body is what follows the first blank line. *)
Lemma framed_body_of (out : string) (headers : list (string * string))
    (body : string) :
  Cgi.framed out headers body -> Cgi.body_of out = Some body.
Proof.
  intros [Hok ->]. unfold Cgi.body_of.
  induction headers as [|header headers IH]; [reflexivity|].
  simpl in Hok. apply andb_prop in Hok as [Hheader Hok].
  simpl Cgi.header_block. rewrite str_app_assoc.
  rewrite (body_after_header _ _ Hheader). by apply IH.
Qed.

(** The decimal form of an integer has no line break. *)
Lemma no_newline_digit (x : N) (s : string) :
  Cgi.no_newline (String (pretty_N_char x) s) = Cgi.no_newline s.
Proof. unfold pretty_N_char. by repeat case_match. Qed.

Lemma no_newline_pretty_N_go (x : N) (s : string) :
  Cgi.no_newline s = true -> Cgi.no_newline (pretty_N_go x s) = true.
Proof.
  revert s. induction (N.lt_wf_0 x) as [x _ IH]; intros s Hs.
  destruct (decide (x = 0%N)) as [->|Hx]; [by rewrite pretty_N_go_0|].
  rewrite pretty_N_go_step by lia. apply IH.
  - apply N.div_lt; lia.
  - by rewrite no_newline_digit.
Qed.

Lemma no_newline_str (n : Z) : Cgi.no_newline (Py.str n) = true.
Proof.
  unfold Py.str, pretty, pretty_Z.
  destruct n as [|p|p]; [reflexivity|..];
    unfold pretty, pretty_positive, pretty, pretty_N; simpl;
    try (change ("-" +:+ ?s) with (String "-" s); rewrite no_newline_cons; simpl);
    by apply no_newline_pretty_N_go.
Qed.

Lemma no_newline_phrase (code : Z) : Cgi.no_newline (StatusPure.phrase code) = true.
Proof.
  unfold StatusPure.phrase.
  destruct (Status.phrases !! code) as [phrase|] eqn:Hphrase; [|reflexivity].
  apply elem_of_list_to_map_2 in Hphrase. simpl.
  repeat (apply elem_of_cons in Hphrase as [[= -> ->]|Hphrase]; [reflexivity|]).
  by apply elem_of_nil in Hphrase.
Qed.

End Framing.

(** ** Running [test.py] *)

Section TestFacts.

Lemma stdout_app (t1 t2 : list event) : stdout (t1 ++ t2) = stdout t1 +:+ stdout t2.
Proof.
  induction t1 as [|[data|seconds] t1 IH]; simpl; [reflexivity| |exact IH].
  by rewrite IH, str_app_assoc.
Qed.

Lemma writes_print (s : string) : writes (print s).
Proof. intros w. by exists [Write (s +:+ Py.LF)]. Qed.

Lemma writes_ret : writes (mret tt).
Proof. intros w. exists []. rewrite (right_id_L [] (++)). by destruct w. Qed.

Lemma writes_bind (m : M unit) (k : unit -> M unit) :
  writes m -> writes (k tt) -> writes (m ≫= k).
Proof.
  intros Hm Hk w. destruct (Hm w) as [t1 H1].
  unfold mbind, M_bind, bind. rewrite H1.
  destruct (Hk (World (w_stdin w) (w_trace w ++ t1))) as [t2 H2].
  exists (t1 ++ t2). rewrite H2. simpl. by rewrite <- (assoc_L (++)).
Qed.

Lemma writes_for_ {A} (xs : list A) (body : A -> M unit) :
  (forall x, writes (body x)) -> writes (for_ xs body).
Proof.
  intros Hbody. unfold for_. induction xs as [|x xs IH]; simpl.
  - apply writes_ret.
  - intros w. destruct (Hbody x w) as [t1 H1].
    unfold mbind, M_bind, bind. rewrite H1.
    destruct (IH (World (w_stdin w) (w_trace w ++ t1))) as [t2 H2].
    exists (t1 ++ t2). rewrite H2. simpl. by rewrite <- (assoc_L (++)).
Qed.

Lemma split1_contains (sep : ascii) (s : string) :
  Py.contains sep s = true -> exists key value, Py.split1 sep s = [key; value].
Proof.
  induction s as [|c s IH]; simpl; [discriminate|].
  destruct (Ascii.eqb c sep); simpl; [by eauto|].
  intros Hs. destruct (IH Hs) as (key & value & ->). eauto.
Qed.

Lemma writes_output_pair (pair : string) : writes (Test.output_pair pair).
Proof.
  unfold Test.output_pair. destruct (Py.contains "=" pair) eqn:Hpair.
  - destruct (split1_contains _ _ Hpair) as (key & value & ->). apply writes_print.
  - apply writes_print.
Qed.

Create HintDb writes.
#[local] Hint Resolve writes_print writes_ret writes_bind writes_for_
  writes_output_pair : writes.

Lemma writes_output_headers : writes Test.output_headers.
Proof. unfold Test.output_headers. auto with writes. Qed.

Lemma writes_output_environment (environ : gmap string string) :
  writes (Test.output_environment environ).
Proof. unfold Test.output_environment. auto 20 with writes. Qed.

Lemma writes_output_query (environ : gmap string string) :
  writes (Test.output_query environ).
Proof.
  unfold Test.output_query. apply writes_bind; [auto with writes|].
  destruct (Py.truthy _); auto 10 with writes.
Qed.

Lemma writes_output_close : writes Test.output_close.
Proof. unfold Test.output_close. auto with writes. Qed.

(** The read does what [TestPure.read] says, whatever the trace. *)
Lemma stdin_read_run (read_ok : Z -> bool) (size : Z) (w : world) :
  stdin_read read_ok size w
  = match TestPure.read read_ok size (w_stdin w) with
    | inl e => (Raise e, w)
    | inr (body, rest) => (Return body, World rest (w_trace w))
    end.
Proof.
  unfold stdin_read, TestPure.read. destruct w as [stdin trace]. cbn [w_stdin w_trace].
  destruct ((size <? Py.ssize_t_min) || (Py.ssize_t_max <? size)); [reflexivity|].
  destruct (size =? 0); [reflexivity|].
  destruct ((0 <? size) && negb (read_ok size)); [reflexivity|].
  destruct stdin as [e|text]; [reflexivity|]. destruct (size <? 0); reflexivity.
Qed.

(** Step 5 does what [TestPure.post_body] says, and returns. *)
Lemma output_post_body_run (read_ok : Z -> bool) (environ : gmap string string)
    (w : world) :
  Test.output_post_body read_ok environ w
  = (Return tt,
     World (fst (TestPure.post_body read_ok environ (w_stdin w)))
       (w_trace w ++ snd (TestPure.post_body read_ok environ (w_stdin w)))).
Proof.
  unfold Test.output_post_body, TestPure.post_body, TestPure.error_line.
  unfold try_except, mbind, M_bind, bind, print, emit, int, raise,
    is_Exception, mret, M_ret, ret. cbn [w_stdin w_trace].
  destruct (_ && _); cbn [fst snd w_stdin w_trace];
    [|rewrite <- ?(assoc_L (++)); cbn [app]; autorewrite with str; reflexivity].
  destruct (Py.int _) as [length|]; cbn [fst snd w_stdin w_trace].
  - rewrite stdin_read_run. cbn [w_stdin w_trace].
    destruct (TestPure.read read_ok length (w_stdin w)) as [e|[body rest]];
      cbn [fst snd w_stdin w_trace];
      rewrite <- ?(assoc_L (++)); cbn [app]; autorewrite with str; reflexivity.
  - rewrite <- ?(assoc_L (++)); cbn [app]; autorewrite with str; reflexivity.
Qed.

Lemma bind_run {A B} (m : M A) (k : A -> M B) (w w' : world) (a : A) :
  m w = (Return a, w') -> (m ≫= k) w = k a w'.
Proof. intros Hm. unfold mbind, M_bind, bind. by rewrite Hm. Qed.

Lemma output_headers_run (w : world) :
  Test.output_headers w
  = (Return tt,
     World (w_stdin w)
       (w_trace w ++ [Write ("Content-Type: text/html" +:+ Py.CR +:+ Py.LF);
                      Write (Py.CR +:+ Py.LF)])).
Proof.
  unfold Test.output_headers, mbind, M_bind, bind, print, emit. simpl.
  rewrite <- (assoc_L (++)). simpl. by autorewrite with str.
Qed.

Lemma output_environment_run (environ : gmap string string) (w : world) :
  exists events,
    Test.output_environment environ w
    = (Return tt,
       World (w_stdin w)
         (w_trace w ++ Write ("<!DOCTYPE html>" +:+ Py.LF) :: events)).
Proof.
  unfold Test.output_environment.
  set (rest := (print "<html>";; _)).
  assert (writes rest) as Hrest by (subst rest; auto 20 with writes).
  destruct (Hrest (World (w_stdin w) (w_trace w ++ [Write ("<!DOCTYPE html>" +:+ Py.LF)])))
    as [events Hevents].
  exists events.
  rewrite (bind_run (print "<!DOCTYPE html>") (fun _ => rest) w
             (World (w_stdin w) (w_trace w ++ [Write ("<!DOCTYPE html>" +:+ Py.LF)]))
             tt eq_refl).
  rewrite Hevents. simpl. by rewrite <- (assoc_L (++)).
Qed.

Lemma output_close_run (w : world) :
  Test.output_close w
  = (Return tt,
     World (w_stdin w)
       (w_trace w ++ [Write ("</body>" +:+ Py.LF); Write ("</html>" +:+ Py.LF)])).
Proof.
  unfold Test.output_close, mbind, M_bind, bind, print, emit. simpl.
  by rewrite <- (assoc_L (++)).
Qed.

(** The run of [main]: it returns; it writes the two header lines, the
    first line of the page, the environment and the query, what step 5
    writes, and the two closing tags. *)
Lemma test_main_run (read_ok : Z -> bool) (environ : gmap string string)
    (stdin : exn + string) :
  exists middle,
    run (Test.main read_ok environ) stdin
    = (Return tt,
       World (fst (TestPure.post_body read_ok environ stdin))
         ([Write ("Content-Type: text/html" +:+ Py.CR +:+ Py.LF);
           Write (Py.CR +:+ Py.LF);
           Write ("<!DOCTYPE html>" +:+ Py.LF)]
          ++ middle
          ++ snd (TestPure.post_body read_ok environ stdin)
          ++ [Write ("</body>" +:+ Py.LF); Write ("</html>" +:+ Py.LF)])).
Proof.
  unfold run, Test.main.
  rewrite (bind_run _ _ _ _ tt (output_headers_run _)). simpl.
  match goal with |- context [Test.output_environment environ ≫= ?k] =>
    destruct (output_environment_run environ (World stdin
      [Write ("Content-Type: text/html" +:+ Py.CR +:+ Py.LF); Write (Py.CR +:+ Py.LF)]))
      as [t1 H1]; rewrite (bind_run _ k _ _ tt H1)
  end.
  match goal with |- context [(Test.output_query environ ≫= ?k) ?w] =>
    destruct (writes_output_query environ w) as [t2 H2];
    rewrite (bind_run _ k _ _ tt H2)
  end.
  rewrite (bind_run _ _ _ _ tt (output_post_body_run _ _ _)).
  rewrite output_close_run. simpl.
  exists (t1 ++ t2). do 2 f_equal. rewrite <- ?(assoc_L (++)). simpl.
  rewrite <- ?(assoc_L (++)). reflexivity.
Qed.

End TestFacts.

(** ** The output contract *)

Section FramingClaims.

Lemma status_step_redirect (st : Status.locals) (param : string) :
  Status.redirect_url (StatusPure.step st param)
  = match StatusPure.assigned_redirect param with
    | Some value => Some value
    | None => Status.redirect_url st
    end.
Proof.
  unfold StatusPure.step, StatusPure.assigned_redirect.
  destruct (Py.startswith "code=" param).
  - destruct (param_value param ≫= Py.int); reflexivity.
  - destruct (Py.startswith "redirect=" param); [|reflexivity].
    destruct (param_value param); reflexivity.
Qed.

Lemma assigned_redirect_some (param value : string) :
  StatusPure.assigned_redirect param = Some value ->
  Py.startswith "redirect=" param = true /\ param_value param = Some value.
Proof.
  unfold StatusPure.assigned_redirect.
  destruct (Py.startswith "code=" param); [discriminate|].
  destruct (Py.startswith "redirect=" param); [auto|discriminate].
Qed.

(** A property of all the redirect values of the parameters holds of the
    redirect URL after the loop. *)
Lemma status_fold_redirect (P : string -> Prop) (params : list string)
    (st : Status.locals) :
  (forall param value, param ∈ params -> Py.startswith "redirect=" param = true ->
     param_value param = Some value -> P value) ->
  (forall url, Status.redirect_url st = Some url -> P url) ->
  forall url, Status.redirect_url (fold_left StatusPure.step params st) = Some url -> P url.
Proof.
  revert st; induction params as [|param params IH]; intros st Hparams Hst; simpl;
    [exact Hst|].
  apply IH.
  - intros p v Hin. apply Hparams. by right.
  - intros url. rewrite status_step_redirect.
    destruct (StatusPure.assigned_redirect param) as [value|] eqn:Hvalue; [|apply Hst].
    intros [= <-]. apply assigned_redirect_some in Hvalue as [Hstart Hvalue].
    apply (Hparams param value); [left|done..].
Qed.

Lemma status_headers_ok (st : Status.locals) :
  (forall url, Status.redirect_url st = Some url -> Cgi.no_newline url = true) ->
  forallb Cgi.header_ok (StatusPure.headers st) = true.
Proof.
  intros Hurl. unfold StatusPure.headers.
  assert (Cgi.header_ok
            ("Status", Py.str (Status.status_code st) +:+ " "
                       +:+ StatusPure.phrase (Status.status_code st)) = true) as Hstatus.
  { unfold Cgi.header_ok. simpl.
    by rewrite !no_newline_app, no_newline_str, no_newline_phrase. }
  unfold Status.redirect_target.
  destruct (Status.redirect_url st) as [url|] eqn:Hredirect; simpl.
  - destruct (Py.truthy url); simpl; rewrite Hstatus; [|reflexivity].
    unfold Cgi.header_ok at 1. simpl. by rewrite (Hurl url eq_refl).
  - by rewrite Hstatus.
Qed.

Lemma status_body_doctype (st : Status.locals) :
  Py.startswith "<!DOCTYPE html>" (StatusPure.body st) = true.
Proof.
  unfold StatusPure.body, run, Status.output_body.
  destruct (Status.redirect_target st);
    unfold print, emit, mbind, M_bind, bind, mret, M_ret, ret; reflexivity.
Qed.

(** C4, as stated, fails: for the query [redirect=/a], two newlines, [x],
    the output of [status.py] is not a block of header lines, a blank line
    and the body that the script prints; the first blank line comes right
    after the [Location] line, and what follows it starts with [x] and
    holds the [Content-Type] header. *)
Lemma status_redirect_breaks_framing :
  let query := "redirect=/a" +:+ Py.LF +:+ Py.LF +:+ "x" in
  let out := snd (Status.output query) in
  (~ exists headers, Cgi.framed out headers (StatusPure.body (StatusPure.parsed query)))
  /\ Cgi.body_of out
     = Some ("x" +:+ Cgi.CRLF +:+ "Content-Type: text/html" +:+ Cgi.CRLF +:+ Cgi.CRLF
             +:+ StatusPure.body (StatusPure.parsed query)).
Proof.
  split; [|reflexivity].
  intros [headers Hframed]. apply framed_body_of in Hframed.
  vm_compute in Hframed. discriminate Hframed.
Qed.

(** C4, amended.  For every query string in which no value of a
    [redirect=] parameter holds a carriage return or a newline, the output
    of [status.py] is a block of [Name: value] header lines, each ended by
    carriage return and newline, then one blank line, then the body; the
    body is what follows the first blank line of the output and starts with
    the document type.  The same holds for [test.py], with the single
    header [Content-Type: text/html], whatever the environment and the
    standard input. *)
Theorem cgi_output_framed :
  (forall query,
     (forall param value, param ∈ Py.split "&" query ->
        Py.startswith "redirect=" param = true ->
        param_value param = Some value -> Cgi.no_newline value = true) ->
     let headers := StatusPure.headers (StatusPure.parsed query) in
     let body := StatusPure.body (StatusPure.parsed query) in
     fst (Status.output query) = Return tt
     /\ Cgi.framed (snd (Status.output query)) headers body
     /\ Cgi.body_of (snd (Status.output query)) = Some body
     /\ Py.startswith "<!DOCTYPE html>" body = true)
  /\ (forall (read_ok : Z -> bool) (environ : gmap string string)
        (stdin : exn + string),
        let out := stdout (w_trace (snd (run (Test.main read_ok environ) stdin))) in
        fst (run (Test.main read_ok environ) stdin) = Return tt
        /\ exists body,
             Cgi.framed out [("Content-Type", "text/html")] body
             /\ Cgi.body_of out = Some body
             /\ Py.startswith "<!DOCTYPE html>" body = true).
Proof.
  split.
  - intros query Hquery headers body.
    assert (Cgi.framed (snd (Status.output query)) headers body) as Hframed.
    { split; [|by rewrite status_output].
      apply status_headers_ok. unfold StatusPure.parsed.
      apply status_fold_redirect; [exact Hquery|discriminate]. }
    split; [by rewrite status_output|]. split; [exact Hframed|].
    split; [by apply (framed_body_of _ headers)|apply status_body_doctype].
  - intros read_ok environ stdin out. subst out.
    destruct (test_main_run read_ok environ stdin) as [middle ->]. simpl.
    split; [reflexivity|].
    eexists. split; [|split].
    + split; [reflexivity|]. unfold Cgi.header_line, Cgi.CRLF. simpl.
      autorewrite with str. reflexivity.
    + reflexivity.
    + reflexivity.
Qed.

Lemma cgi_output_framed_witness :
  Cgi.body_of (snd (Status.output "code=301&redirect=/moved"))
  = Some (StatusPure.body (StatusPure.parsed "code=301&redirect=/moved")).
Proof.
  apply (proj1 cgi_output_framed "code=301&redirect=/moved").
  intros param value Hin Hstart Hvalue. simpl in Hin.
  repeat (apply elem_of_cons in Hin as [->|Hin]);
    first [discriminate Hstart | by injection Hvalue as <- | by apply elem_of_nil in Hin].
Defined.

End FramingClaims.

(** ** The POST body in [test.py] *)

Section PostBodyClaims.

Lemma int_truthy (s : string) (n : Z) : Py.int s = Some n -> Py.truthy s = true.
Proof. destruct s; [discriminate|reflexivity]. Qed.

Lemma environ_get_some (environ : gmap string string) (name fallback value : string) :
  environ !! name = Some value -> environ_get environ name fallback = value.
Proof. intros Hvalue. unfold environ_get. by rewrite Hvalue. Qed.

(** What [main] has written, from what step 5 writes. *)
Lemma test_main_stdout (read_ok : Z -> bool) (environ : gmap string string)
    (stdin : exn + string) :
  exists page,
    fst (run (Test.main read_ok environ) stdin) = Return tt
    /\ w_stdin (snd (run (Test.main read_ok environ) stdin))
       = fst (TestPure.post_body read_ok environ stdin)
    /\ stdout (w_trace (snd (run (Test.main read_ok environ) stdin)))
       = "Content-Type: text/html" +:+ Cgi.CRLF +:+ Cgi.CRLF +:+ page
         +:+ stdout (snd (TestPure.post_body read_ok environ stdin))
         +:+ "</body>" +:+ Py.LF +:+ "</html>" +:+ Py.LF.
Proof.
  destruct (test_main_run read_ok environ stdin) as [middle Hrun]. rewrite Hrun. simpl.
  exists ("<!DOCTYPE html>" +:+ Py.LF +:+ stdout middle).
  split; [reflexivity|]. split; [reflexivity|].
  rewrite !stdout_app. simpl. unfold Cgi.CRLF. autorewrite with str. reflexivity.
Qed.

Lemma encode_app (s t : string) : Py.encode (s +:+ t) = Py.encode s +:+ Py.encode t.
Proof.
  induction s as [|c s IH]; [reflexivity|].
  rewrite str_app_cons. cbn [Py.encode]. by rewrite IH, str_app_assoc.
Qed.

Lemma length_encode_char (c : ascii) :
  String.length (Py.encode_char c) = if (N_of_ascii c <? 128)%N then 1%nat else 2%nat.
Proof. unfold Py.encode_char. by destruct (N_of_ascii c <? 128)%N. Qed.

(** A text takes at least a byte for each character, and just one for
    each exactly when it is ASCII; an ASCII text is its own encoding. *)
Lemma length_encode (s : string) :
  (String.length s <= String.length (Py.encode s))%nat
  /\ (String.length (Py.encode s) = String.length s <-> Py.isascii s = true)
  /\ (Py.isascii s = true -> Py.encode s = s).
Proof.
  induction s as [|c s (Hle & Hiff & Hascii)]; [done|].
  cbn [Py.encode Py.isascii String.length].
  rewrite str_length_app, length_encode_char.
  destruct (N_of_ascii c <? 128)%N eqn:Hc; cbn [andb].
  - split; [lia|]. split.
    + rewrite <- Hiff. lia.
    + intros Hs. unfold Py.encode_char. rewrite Hc. by rewrite (Hascii Hs).
  - split; [lia|]. split; [|done]. split; [lia|done].
Qed.

(** C3, as stated, fails.  With [CONTENT_LENGTH=3] and a standard input of
    three times the letter e with an acute accent, which are six bytes,
    [test.py] reports 3 bytes and takes all six: the read counts
    characters, and the three that it takes and echoes are not three
    bytes.  And with [CONTENT_LENGTH=-1], a decimal integer too, it takes
    the five bytes of [hello] and reports 5. *)
Lemma test_post_body_not_n_bytes :
  (let environ : gmap string string :=
     {[ "REQUEST_METHOD" := "POST"; "CONTENT_LENGTH" := "3" ]} in
   let text := String "233" (String "233" (String "233" "")) in
   let w := snd (run (Test.main (fun _ => true) environ) (inr text)) in
   Py.int "3" = Some 3
   /\ String.length (Py.encode text) = 6%nat
   /\ w_stdin w = inr ""
   /\ Py.occurs ("<p>Received 3 bytes:</p>" +:+ Py.LF +:+ "<pre>" +:+ text +:+ "</pre>")
        (stdout (w_trace w)) = true
   /\ String.length (Py.encode (Py.take 3 text)) <> 3%nat)
  /\ (let environ : gmap string string :=
        {[ "REQUEST_METHOD" := "POST"; "CONTENT_LENGTH" := "-1" ]} in
      let w := snd (run (Test.main (fun _ => true) environ) (inr "hello")) in
      Py.int "-1" = Some (-1)
      /\ w_stdin w = inr ""
      /\ Py.occurs ("<p>Received 5 bytes:</p>" +:+ Py.LF +:+ "<pre>hello</pre>")
           (stdout (w_trace w)) = true).
Proof. vm_compute. repeat split; try reflexivity. discriminate. Qed.

(** C3, amended.  When [REQUEST_METHOD] is [POST], [CONTENT_LENGTH] is a
    literal that [int] reads as the number [n], not negative, standard
    input is a text of at least [n] bytes, the first [n] of which are
    ASCII characters, and the interpreter has the memory for a read of
    [n], [test.py] ends normally,
    takes exactly the first [n] bytes from standard input, and its output,
    after the headers, holds the line that reports [n] bytes followed by
    those [n] bytes, unchanged, between the [pre] tags. *)
Theorem test_post_body_echo (read_ok : Z -> bool) (environ : gmap string string)
    (content_length text : string) (n : nat) :
  environ !! "REQUEST_METHOD" = Some "POST" ->
  environ !! "CONTENT_LENGTH" = Some content_length ->
  Py.int content_length = Some (Z.of_nat n) ->
  (n <= String.length text)%nat ->
  Py.isascii (Py.take n text) = true ->
  Py.len text <= Py.ssize_t_max ->
  ((0 < n)%nat -> read_ok (Z.of_nat n) = true) ->
  let body := Py.take n text in
  let '(r, w) := run (Test.main read_ok environ) (inr text) in
  r = Return tt
  /\ w_stdin w = inr (Py.drop n text)
  /\ String.length body = n
  /\ Py.encode body = body
  /\ Py.encode text = body +:+ Py.encode (Py.drop n text)
  /\ exists page,
       stdout (w_trace w)
       = "Content-Type: text/html" +:+ Cgi.CRLF +:+ Cgi.CRLF +:+ page
         +:+ "<p>Received " +:+ Py.str (Z.of_nat n) +:+ " bytes:</p>" +:+ Py.LF
         +:+ "<pre>" +:+ body +:+ "</pre>" +:+ Py.LF
         +:+ "</body>" +:+ Py.LF +:+ "</html>" +:+ Py.LF.
Proof.
  intros Hmethod Hlength Hint Hn Hascii Htext Hmemory body.
  assert (String.length body = n) as Hbody.
  { subst body. rewrite length_take. lia. }
  assert (Py.encode body = body) as Hbytes.
  { by apply length_encode. }
  assert (TestPure.read read_ok (Z.of_nat n) (inr text) = inr (body, inr (Py.drop n text)))
    as Hread.
  { unfold TestPure.read, Py.ssize_t_min. unfold Py.len in Htext.
    assert ((Z.of_nat n <? - 2 ^ 63) || (Py.ssize_t_max <? Z.of_nat n) = false) as ->.
    { apply orb_false_intro; lia. }
    destruct n as [|n']; [reflexivity|].
    rewrite Hmemory by lia.
    assert ((Z.of_nat (S n') =? 0) = false) as -> by (apply Z.eqb_neq; lia).
    assert ((Z.of_nat (S n') <? 0) = false) as -> by (apply Z.ltb_ge; lia).
    rewrite andb_false_r, Nat2Z.id. reflexivity. }
  assert (TestPure.post_body read_ok environ (inr text)
          = (inr (Py.drop n text),
             [Write ("<h2>POST Body</h2>" +:+ Py.LF);
              Write ("<p>Received " +:+ Py.str (Z.of_nat n) +:+ " bytes:</p>" +:+ Py.LF);
              Write ("<pre>" +:+ body +:+ "</pre>" +:+ Py.LF)])) as Hpost.
  { unfold TestPure.post_body.
    rewrite (environ_get_some _ _ _ _ Hmethod), (environ_get_some _ _ _ _ Hlength).
    rewrite (int_truthy _ _ Hint), Hint. cbn [andb String.eqb Ascii.eqb Bool.eqb].
    rewrite Hread. unfold Py.len. by rewrite Hbody. }
  destruct (test_main_stdout read_ok environ (inr text)) as (page & Hrun & Hin & Hout).
  rewrite Hpost in Hin, Hout. cbn [fst snd stdout] in Hin, Hout.
  destruct (run (Test.main read_ok environ) (inr text)) as [r w].
  cbn [fst snd] in Hrun, Hin, Hout.
  split; [exact Hrun|]. split; [exact Hin|]. split; [exact Hbody|].
  split; [exact Hbytes|].
  split.
  { transitivity (Py.encode body +:+ Py.encode (Py.drop n text)); [|by rewrite Hbytes].
    unfold body. by rewrite <- encode_app, take_drop. }
  exists (page +:+ "<h2>POST Body</h2>" +:+ Py.LF).
  rewrite Hout. autorewrite with str. reflexivity.
Qed.

Lemma test_post_body_echo_witness :
  let '(r, w) :=
    run (Test.main (fun _ => true)
           {[ "REQUEST_METHOD" := "POST"; "CONTENT_LENGTH" := "11" ]})
      (inr "hello world") in
  r = Return tt
  /\ w_stdin w = inr (Py.drop 11 "hello world")
  /\ String.length (Py.take 11 "hello world") = 11%nat
  /\ Py.encode (Py.take 11 "hello world") = Py.take 11 "hello world"
  /\ Py.encode "hello world"
     = Py.take 11 "hello world" +:+ Py.encode (Py.drop 11 "hello world")
  /\ exists page,
       stdout (w_trace w)
       = "Content-Type: text/html" +:+ Cgi.CRLF +:+ Cgi.CRLF +:+ page
         +:+ "<p>Received " +:+ Py.str (Z.of_nat 11) +:+ " bytes:</p>" +:+ Py.LF
         +:+ "<pre>" +:+ Py.take 11 "hello world" +:+ "</pre>" +:+ Py.LF
         +:+ "</body>" +:+ Py.LF +:+ "</html>" +:+ Py.LF.
Proof.
  apply (test_post_body_echo (fun _ => true)
           {[ "REQUEST_METHOD" := "POST"; "CONTENT_LENGTH" := "11" ]}
           "11" "hello world" 11);
    [vm_compute; reflexivity|vm_compute; reflexivity|reflexivity|simpl; lia
    |reflexivity|vm_compute; discriminate|reflexivity].
Defined.

End PostBodyClaims.

(** ** Errors while reading the POST body *)

Section PostBodyErrors.

(** C10, as stated, fails: with [REQUEST_METHOD=POST] and [CONTENT_LENGTH]
    set to the empty string, which is not an integer, no exception is
    raised and none is reported: the page says that there is no POST
    body. *)
Lemma test_empty_content_length :
  let environ : gmap string string :=
    {[ "REQUEST_METHOD" := "POST"; "CONTENT_LENGTH" := "" ]} in
  let out :=
    stdout (w_trace (snd (run (Test.main (fun _ => true) environ) (inr "hello")))) in
  environ !! "CONTENT_LENGTH" = Some ""
  /\ Py.int "" = None
  /\ Py.occurs "Error reading body" out = false
  /\ Py.occurs "<p><em>No POST body (GET request or no Content-Length)</em></p>" out = true.
Proof. vm_compute. repeat split; reflexivity. Qed.

(** When the read raises: a size outside the range of an index, whatever
    the stream; a positive size for which there is no memory; any other
    size but 0 on a stream whose reads fail. *)
Lemma stdin_read_raises (read_ok : Z -> bool) (size : Z) (stdin : exn + string) (e : exn) :
  fst (run (stdin_read read_ok size) stdin) = Raise e
  <-> (size < Py.ssize_t_min \/ Py.ssize_t_max < size)
      /\ e = Exn OverflowError (Message "cannot fit 'int' into an index-sized integer")
      \/ (0 < size <= Py.ssize_t_max /\ read_ok size = false)
         /\ e = Exn MemoryError (Message "")
      \/ (Py.ssize_t_min <= size < 0 \/ 0 < size <= Py.ssize_t_max /\ read_ok size = true)
         /\ stdin = inl e.
Proof.
  assert (Py.ssize_t_min < 0 < Py.ssize_t_max) as Hbounds by (split; reflexivity).
  unfold run. rewrite stdin_read_run. unfold TestPure.read. cbn [w_stdin].
  destruct (Z.ltb_spec size Py.ssize_t_min) as [Hmin|Hmin];
    destruct (Z.ltb_spec Py.ssize_t_max size) as [Hmax|Hmax]; cbn [orb fst];
    try (split;
         [intros [= <-]; left; split; [lia|reflexivity]
         |intros [[_ ->]|[[? _]|[? _]]]; [reflexivity|lia|lia]]).
  destruct (Z.eqb_spec size 0) as [Hzero|Hzero].
  { cbn [fst]. split; [discriminate|]. intros [[? _]|[[? _]|[? _]]]; lia. }
  destruct (Z.ltb_spec 0 size) as [Hpos|Hpos]; destruct (read_ok size) eqn:Hok;
    cbn [andb negb].
  - destruct stdin as [e'|text]; [|destruct (size <? 0)]; cbn [fst]; split;
      try discriminate.
    + intros [= <-]. right. right. split; [right; split; [lia|reflexivity]|reflexivity].
    + intros [[? _]|[[[_ ?] _]|[_ [= ->]]]]; [lia|discriminate|reflexivity].
    + intros [[? _]|[[[_ ?] _]|[_ ?]]]; [lia|discriminate|discriminate].
    + intros [[? _]|[[[_ ?] _]|[_ ?]]]; [lia|discriminate|discriminate].
  - cbn [fst]. split.
    + intros [= <-]. right. left. split; [split; [lia|reflexivity]|reflexivity].
    + intros [[? _]|[[_ ->]|[[?|[_ ?]] _]]]; [lia|reflexivity|lia|discriminate].
  - destruct stdin as [e'|text]; [|destruct (size <? 0)]; cbn [fst]; split;
      try discriminate.
    + intros [= <-]. right. right. split; [left; lia|reflexivity].
    + intros [[? _]|[[[? _] _]|[_ [= ->]]]]; [lia|lia|reflexivity].
    + intros [[? _]|[[[? _] _]|[_ ?]]]; [lia|lia|discriminate].
    + intros [[? _]|[[[? _] _]|[_ ?]]]; [lia|lia|discriminate].
  - destruct stdin as [e'|text]; [|destruct (size <? 0)]; cbn [fst]; split;
      try discriminate.
    + intros [= <-]. right. right. split; [left; lia|reflexivity].
    + intros [[? _]|[[[? _] _]|[_ [= ->]]]]; [lia|lia|reflexivity].
    + intros [[? _]|[[[? _] _]|[_ ?]]]; [lia|lia|discriminate].
    + intros [[? _]|[[[? _] _]|[_ ?]]]; [lia|lia|discriminate].
Qed.

(** C10, amended.  When [REQUEST_METHOD] is [POST] and [CONTENT_LENGTH] is
    not empty, and either [int] rejects [CONTENT_LENGTH], raising its
    [ValueError] [e], or it accepts it and the read of standard input
    raises [e] (for a length outside the range of an index, for one that
    there is no memory for, or on a stream whose reads fail), then
    [test.py] ends normally, the exception is not propagated, nothing has
    been taken from standard input, and the output is the complete header
    block, the page up to step 5, the paragraph that reports [e], and the
    closing tags. *)
Theorem test_post_body_error (read_ok : Z -> bool) (environ : gmap string string)
    (content_length : string) (stdin : exn + string) (e : exn) :
  environ !! "REQUEST_METHOD" = Some "POST" ->
  environ !! "CONTENT_LENGTH" = Some content_length ->
  content_length <> "" ->
  (Py.int content_length = None /\ e = int_error content_length)
  \/ (exists length,
        Py.int content_length = Some length
        /\ fst (run (stdin_read read_ok length) stdin) = Raise e) ->
  fst (run (Test.main read_ok environ) stdin) = Return tt
  /\ w_stdin (snd (run (Test.main read_ok environ) stdin)) = stdin
  /\ exists page,
       stdout (w_trace (snd (run (Test.main read_ok environ) stdin)))
       = "Content-Type: text/html" +:+ Cgi.CRLF +:+ Cgi.CRLF +:+ page
         +:+ "<p>Error reading body: " +:+ exn_str e +:+ "</p>" +:+ Py.LF
         +:+ "</body>" +:+ Py.LF +:+ "</html>" +:+ Py.LF.
Proof.
  intros Hmethod Hlength Hnonempty Hcause.
  assert (Py.truthy content_length = true) as Htruthy.
  { destruct content_length; [done|reflexivity]. }
  assert (TestPure.post_body read_ok environ stdin
          = (stdin, [Write ("<h2>POST Body</h2>" +:+ Py.LF); TestPure.error_line e]))
    as Hpost.
  { unfold TestPure.post_body.
    rewrite (environ_get_some _ _ _ _ Hmethod), (environ_get_some _ _ _ _ Hlength).
    rewrite Htruthy. cbn [andb String.eqb Ascii.eqb Bool.eqb].
    destruct Hcause as [[-> ->]|(length & -> & Hread)]; [reflexivity|].
    unfold run in Hread. rewrite stdin_read_run in Hread. cbn [w_stdin] in Hread.
    destruct (TestPure.read read_ok length stdin) as [e'|[body rest]];
      cbn [fst] in Hread; [|discriminate Hread].
    by injection Hread as ->. }
  destruct (test_main_stdout read_ok environ stdin) as (page & Hrun & Hin & Hout).
  rewrite Hpost in Hin, Hout. cbn [fst snd] in Hin, Hout.
  split; [exact Hrun|]. split; [exact Hin|].
  exists (page +:+ "<h2>POST Body</h2>" +:+ Py.LF).
  rewrite Hout. unfold TestPure.error_line. cbn [stdout].
  autorewrite with str. reflexivity.
Qed.

Lemma test_post_body_error_witness :
  let read_ok := fun _ : Z => true in
  let environ : gmap string string :=
    {[ "REQUEST_METHOD" := "POST"; "CONTENT_LENGTH" := "9223372036854775808" ]} in
  let e := Exn OverflowError (Message "cannot fit 'int' into an index-sized integer") in
  fst (run (Test.main read_ok environ) (inr "hello")) = Return tt
  /\ w_stdin (snd (run (Test.main read_ok environ) (inr "hello"))) = inr "hello"
  /\ exists page,
       stdout (w_trace (snd (run (Test.main read_ok environ) (inr "hello"))))
       = "Content-Type: text/html" +:+ Cgi.CRLF +:+ Cgi.CRLF +:+ page
         +:+ "<p>Error reading body: " +:+ exn_str e +:+ "</p>" +:+ Py.LF
         +:+ "</body>" +:+ Py.LF +:+ "</html>" +:+ Py.LF.
Proof.
  intros read_ok environ e.
  refine (test_post_body_error read_ok environ "9223372036854775808" (inr "hello") e
            _ _ _ _);
    [subst environ; vm_compute; reflexivity|subst environ; vm_compute; reflexivity
    |discriminate|].
  right. exists (2 ^ 63). split; [vm_compute; reflexivity|].
  apply stdin_read_raises. left. split; [right; vm_compute; reflexivity|reflexivity].
Defined.

(** A content length that [int] rejects is reported in the same way. *)
Example test_post_body_error_literal :
  let read_ok := fun _ : Z => true in
  let environ : gmap string string :=
    {[ "REQUEST_METHOD" := "POST"; "CONTENT_LENGTH" := "12x" ]} in
  Py.occurs
    ("<p>Error reading body: invalid literal for int() with base 10: '12x'</p>" +:+ Py.LF
     +:+ "</body>" +:+ Py.LF +:+ "</html>" +:+ Py.LF)
    (stdout (w_trace (snd (run (Test.main read_ok environ) (inr "hello"))))) = true.
Proof. vm_compute. reflexivity. Qed.

Example int_error_message :
  exn_str (Exn ValueError (InvalidLiteral "12x"))
  = "invalid literal for int() with base 10: '12x'".
Proof. reflexivity. Qed.

End PostBodyErrors.

(** ** The splitting of the query string *)

Section QueryParsing.

Lemma before_prefix (sep : ascii) (s : string) :
  Py.contains sep (before sep s) = false
  /\ if Py.contains sep s
     then exists dropped, s = before sep s +:+ String sep dropped
     else before sep s = s.
Proof.
  unfold before. induction s as [|c s [IHfree IHrest]]; simpl; [done|].
  destruct (Ascii.eqb c sep) eqn:Hc; simpl.
  - split; [reflexivity|]. exists s. apply Ascii.eqb_eq in Hc as ->. reflexivity.
  - destruct (split_nonempty sep s) as (field & fields & Hsplit).
    rewrite Hsplit in IHfree, IHrest |- *. simpl. rewrite Hc. split; [exact IHfree|].
    destruct (Py.contains sep s).
    + destruct IHrest as [dropped ->]. exists dropped. reflexivity.
    + by rewrite IHrest.
Qed.

Lemma assigned_redirect_key (value : string) :
  StatusPure.assigned_redirect ("redirect=" +:+ value) = Some (before "=" value).
Proof.
  unfold StatusPure.assigned_redirect.
  assert (Py.startswith "code=" ("redirect=" +:+ value) = false) as -> by reflexivity.
  assert (Py.startswith "redirect=" ("redirect=" +:+ value) = true) as ->.
  { apply prefix_app. by exists value. }
  change ("redirect=" +:+ value) with ("redirect" +:+ "=" +:+ value).
  by apply param_value_key.
Qed.

Lemma assigned_redirect_none (param : string) :
  Py.startswith "redirect=" param = false -> StatusPure.assigned_redirect param = None.
Proof.
  intros Hparam. unfold StatusPure.assigned_redirect. rewrite Hparam.
  by destruct (Py.startswith "code=" param).
Qed.

Lemma status_fold_redirect_unassigned (params : list string) (st : Status.locals) :
  Forall (fun param => Py.startswith "redirect=" param = false) params ->
  Status.redirect_url (fold_left StatusPure.step params st) = Status.redirect_url st.
Proof.
  intros Hall; revert st; induction Hall as [|param params Hparam _ IH]; intros st;
    simpl; [reflexivity|].
  rewrite IH, status_step_redirect. by rewrite (assigned_redirect_none _ Hparam).
Qed.

Lemma status_step_unassigned (st : Status.locals) (param : string) :
  StatusPure.assigned_code param = None ->
  StatusPure.assigned_redirect param = None ->
  StatusPure.step st param = st.
Proof.
  unfold StatusPure.assigned_code, StatusPure.assigned_redirect, StatusPure.step.
  destruct (Py.startswith "code=" param).
  - by intros -> _.
  - destruct (Py.startswith "redirect=" param); [|done]. by intros _ ->.
Qed.

Lemma assigned_sleep_key (value : string) :
  SlowPure.assigned_sleep ("sleep=" +:+ value) = Py.int (before "=" value).
Proof.
  unfold SlowPure.assigned_sleep.
  assert (Py.startswith "sleep=" ("sleep=" +:+ value) = true) as ->.
  { apply prefix_app. by exists value. }
  change ("sleep=" +:+ value) with ("sleep" +:+ "=" +:+ value).
  by rewrite (param_value_key "sleep" value eq_refl).
Qed.

Lemma slow_step_assigned (sleep_time : Z) (param : string) :
  SlowPure.step sleep_time param = default sleep_time (SlowPure.assigned_sleep param).
Proof.
  unfold SlowPure.step, SlowPure.assigned_sleep.
  destruct (Py.startswith "sleep=" param); [|reflexivity].
  by destruct (param_value param ≫= Py.int).
Qed.

Lemma status_step_redirect_key (st : Status.locals) (value : string) :
  StatusPure.step st ("redirect=" +:+ value)
  = Status.Locals (Status.status_code st) (Some (before "=" value)).
Proof.
  pose proof (assigned_redirect_key value) as Hkey.
  unfold StatusPure.assigned_redirect in Hkey. unfold StatusPure.step.
  assert (Py.startswith "code=" ("redirect=" +:+ value) = false) as Hcode by reflexivity.
  rewrite Hcode in Hkey |- *.
  destruct (Py.startswith "redirect=" ("redirect=" +:+ value)); [|discriminate].
  by rewrite Hkey.
Qed.

(** C6, as stated, fails: in the query [redirect=a=b&redirect=c] the
    value [a=b] of the first parameter holds a [=], the prefix before it
    is [a], and the Location header that [status.py] emits is
    [Location: c]. *)
Lemma status_redirect_overwritten :
  let out := snd (Status.output "redirect=a=b&redirect=c") in
  Py.split "&" "redirect=a=b&redirect=c" = ["redirect=" +:+ "a=b"; "redirect=c"]
  /\ Py.contains "=" "a=b" = true
  /\ before "=" "a=b" = "a"
  /\ Py.occurs ("Location: a" +:+ Cgi.CRLF) out = false
  /\ Py.occurs ("Location: c" +:+ Cgi.CRLF) out = true.
Proof. repeat split; reflexivity. Qed.

(** C6, amended.  The manual parsing of the query string in [status.py]
    and [slow.py] drops the part of a value from its first [=] on, and a
    [&] always ends a parameter.  For the last parameter [redirect=V] of a
    query, the redirect URL is the prefix of [V] before its first [=], and
    the header block holds [Location:] with that prefix, or no [Location]
    line when the prefix is empty.  The body of either loop reads
    [redirect=V] and [sleep=V] through that prefix.  A parameter that
    assigns nothing is discarded: the loop body returns, changes no
    variable and writes nothing. *)
Theorem query_values_truncated :
  (forall query earlier later value,
     Py.split "&" query = earlier ++ ("redirect=" +:+ value) :: later ->
     Forall (fun param => Py.startswith "redirect=" param = false) later ->
     let url := before "=" value in
     let st := StatusPure.parsed query in
     Py.contains "=" url = false
     /\ (if Py.contains "=" value
         then exists dropped, value = url +:+ String "=" dropped
         else url = value)
     /\ Status.redirect_url st = Some url
     /\ Status.output query
        = (Return tt,
           Cgi.header_block
             ([("Status", Py.str (Status.status_code st) +:+ " "
                          +:+ StatusPure.phrase (Status.status_code st))]
              ++ (if Py.truthy url then [("Location", url)] else [])
              ++ [("Content-Type", "text/html")])
           +:+ Cgi.CRLF +:+ StatusPure.body st))
  /\ (forall st value w,
        Status.parse_param st ("redirect=" +:+ value) w
        = (Return (Status.Locals (Status.status_code st) (Some (before "=" value))), w))
  /\ (forall sleep_time value w,
        Slow.parse_param sleep_time ("sleep=" +:+ value) w
        = (Return (default sleep_time (Py.int (before "=" value))), w))
  /\ (forall query param, param ∈ Py.split "&" query -> Py.contains "&" param = false)
  /\ (forall st param w,
        StatusPure.assigned_code param = None ->
        StatusPure.assigned_redirect param = None ->
        Status.parse_param st param w = (Return st, w))
  /\ (forall sleep_time param w,
        SlowPure.assigned_sleep param = None ->
        Slow.parse_param sleep_time param w = (Return sleep_time, w)).
Proof.
  split; [|split; [|split; [|split; [|split]]]].
  - intros query earlier later value Hsplit Hlater url st.
    destruct (before_prefix "=" value) as [Hfree Hdropped].
    assert (Status.redirect_url st = Some url) as Hurl.
    { subst st. unfold StatusPure.parsed. rewrite Hsplit, fold_left_app. simpl.
      rewrite (status_fold_redirect_unassigned _ _ Hlater), status_step_redirect.
      by rewrite assigned_redirect_key. }
    split; [exact Hfree|]. split; [exact Hdropped|]. split; [exact Hurl|].
    rewrite status_output. fold st. unfold StatusPure.headers, Status.redirect_target.
    rewrite Hurl. by destruct (Py.truthy url).
  - intros st value w. by rewrite status_parse_param_run, status_step_redirect_key.
  - intros sleep_time value w.
    by rewrite slow_parse_param_run, slow_step_assigned, assigned_sleep_key.
  - intros query param. apply split_fields_free.
  - intros st param w Hcode Hredirect.
    by rewrite status_parse_param_run, status_step_unassigned.
  - intros sleep_time param w Hsleep.
    by rewrite slow_parse_param_run, slow_step_assigned, Hsleep.
Qed.

Lemma query_values_truncated_witness :
  Status.redirect_url (StatusPure.parsed "code=302&redirect=/a?x=1&y") = Some "/a?x".
Proof.
  apply (proj1 query_values_truncated "code=302&redirect=/a?x=1&y"
           ["code=302"] ["y"] "/a?x=1");
    [reflexivity|repeat constructor].
Defined.

End QueryParsing.

(** ** [slow.py] and its sleep *)

Section SlowClaims.

(** The run of [slow.py]: a duration that [time.sleep] refuses makes it
    raise before anything is written; otherwise the process sleeps and
    then writes four lines. *)
Lemma slow_run (sleep_max : Z) (query : string) :
  let seconds := SlowPure.sleep_time query in
  Slow.run_query sleep_max query
  = if seconds <? - Py.time_max then
      (Raise (Exn OverflowError (Message "timestamp too large to convert to C _PyTime_t")),
       World (inr "") [])
    else if seconds <? 0 then
      (Raise (Exn ValueError (Message "sleep length must be non-negative")),
       World (inr "") [])
    else if sleep_max <? seconds then
      if Py.time_max <? seconds then
        (Raise (Exn OverflowError (Message "timestamp too large to convert to C _PyTime_t")),
         World (inr "") [])
      else (Raise (Exn OSError (Message "[Errno 22] Invalid argument")), World (inr "") [])
    else
      (Return tt,
       World (inr "")
         [Sleep seconds;
          Write ("Content-Type: text/plain" +:+ Py.CR +:+ Py.LF);
          Write (Py.CR +:+ Py.LF);
          Write ("Slept for " +:+ Py.str seconds +:+ " seconds" +:+ Py.LF);
          Write ("This should not appear if timeout is working!" +:+ Py.LF)]).
Proof.
  intros seconds. unfold Slow.run_query, run, Slow.main.
  rewrite (environ_get_query query "QUERY_STRING" "").
  rewrite (bind_run _ _ _ _ _ (slow_parse_query_run query _)). fold seconds.
  unfold time_sleep. destruct (seconds <? - Py.time_max); [reflexivity|].
  destruct (seconds <? 0); [reflexivity|].
  destruct (sleep_max <? seconds); [destruct (Py.time_max <? seconds); reflexivity|].
  unfold mbind, M_bind, bind, print, emit. cbn [w_stdin w_trace app].
  autorewrite with str. reflexivity.
Qed.

(** The run for a duration that is accepted. *)
Lemma slow_run_accepted (sleep_max : Z) (query : string) :
  0 <= SlowPure.sleep_time query <= sleep_max ->
  Slow.run_query sleep_max query
  = (Return tt,
     World (inr "")
       [Sleep (SlowPure.sleep_time query);
        Write ("Content-Type: text/plain" +:+ Py.CR +:+ Py.LF);
        Write (Py.CR +:+ Py.LF);
        Write ("Slept for " +:+ Py.str (SlowPure.sleep_time query) +:+ " seconds" +:+ Py.LF);
        Write ("This should not appear if timeout is working!" +:+ Py.LF)]).
Proof.
  intros Hseconds. rewrite slow_run. cbv zeta.
  assert (0 < Py.time_max) as Hmax by reflexivity.
  destruct (Z.ltb_spec (SlowPure.sleep_time query) (- Py.time_max)); [lia|].
  destruct (Z.ltb_spec (SlowPure.sleep_time query) 0); [lia|].
  destruct (Z.ltb_spec sleep_max (SlowPure.sleep_time query)); [lia|]. reflexivity.
Qed.

(** The run for a duration that is refused: nothing is in the trace. *)
Lemma slow_run_refused (sleep_max : Z) (query : string) :
  SlowPure.sleep_time query < 0 \/ sleep_max < SlowPure.sleep_time query ->
  exists e,
    Slow.run_query sleep_max query = (Raise e, World (inr "") []).
Proof.
  intros Hseconds. rewrite slow_run. cbv zeta.
  destruct (SlowPure.sleep_time query <? - Py.time_max); [by eexists|].
  destruct (Z.ltb_spec (SlowPure.sleep_time query) 0); [by eexists|].
  destruct (Z.ltb_spec sleep_max (SlowPure.sleep_time query)); [|lia].
  destruct (Py.time_max <? SlowPure.sleep_time query); by eexists.
Qed.

Lemma slow_partial_output (sleep_max : Z) (query : string) :
  (forall earlier later data,
     w_trace (snd (Slow.run_query sleep_max query)) = earlier ++ Write data :: later ->
     exists between, earlier = Sleep (SlowPure.sleep_time query) :: between)
  /\ (forall elapsed,
        elapsed <= SlowPure.sleep_time query ->
        Supervisor.partial_output elapsed
          (w_trace (snd (Slow.run_query sleep_max query))) = "").
Proof.
  destruct (Z.le_gt_cases 0 (SlowPure.sleep_time query)) as [Hpos|Hneg];
    [destruct (Z.le_gt_cases (SlowPure.sleep_time query) sleep_max) as [Hmax|Hmax]|].
  - rewrite slow_run_accepted by lia. cbn [snd w_trace]. split.
    + intros [|ev earlier] later data Htrace; [discriminate Htrace|].
      injection Htrace as <- _. by exists earlier.
    + intros elapsed Helapsed. cbn [Supervisor.partial_output].
      assert ((SlowPure.sleep_time query <? elapsed) = false) as -> by lia. reflexivity.
  - destruct (slow_run_refused sleep_max query ltac:(lia)) as [e ->]. cbn [snd w_trace].
    split; [|reflexivity].
    intros [|ev earlier] later data Htrace; discriminate Htrace.
  - destruct (slow_run_refused sleep_max query ltac:(lia)) as [e ->]. cbn [snd w_trace].
    split; [|reflexivity].
    intros [|ev earlier] later data Htrace; discriminate Htrace.
Qed.

(** C9.  In every run of [slow.py], each write to standard output comes
    after the sleep: the events before it start with the sleep.  So a
    process that is stopped when at most the sleep duration has elapsed has
    written nothing. *)
Theorem slow_writes_after_sleep (sleep_max : Z) (query : string) :
  let seconds := SlowPure.sleep_time query in
  let trace := w_trace (snd (Slow.run_query sleep_max query)) in
  (forall earlier later data,
     trace = earlier ++ Write data :: later ->
     exists between, earlier = Sleep seconds :: between)
  /\ (forall elapsed,
        elapsed <= seconds -> Supervisor.partial_output elapsed trace = "").
Proof. apply slow_partial_output. Qed.

Lemma slow_writes_after_sleep_witness :
  Supervisor.partial_output 2 (w_trace (snd (Slow.run_query 86400 "sleep=5"))) = "".
Proof.
  apply (proj2 (slow_writes_after_sleep 86400 "sleep=5") 2). vm_compute. discriminate.
Defined.

End SlowClaims.

(** ** The slow-consumer client *)

Section ClientClaims.

Lemma bytes_cons (segment : string) (later : list string) :
  SlowClient.bytes (segment :: later) = segment +:+ SlowClient.bytes later.
Proof. reflexivity. Qed.

Lemma total_length_cons (segment : string) (later : list string) :
  SlowClient.total_length (segment :: later)
  = Py.len segment + SlowClient.total_length later.
Proof. reflexivity. Qed.

Lemma pending_cons (segment : string) (later : list string) :
  SlowClient.pending (segment :: later)
  = S (String.length segment + SlowClient.pending later).
Proof. reflexivity. Qed.

(** One [recv]: at most [bufsize] bytes, taken from the front of the
    response; an empty result only when nothing is left. *)
Lemma recv_spec (bufsize : nat) (conn : SlowClient.connection) :
  (0 < bufsize)%nat ->
  let '(data, conn') := SlowClient.recv bufsize conn in
  (String.length data <= bufsize)%nat
  /\ SlowClient.bytes conn = data +:+ SlowClient.bytes conn'
  /\ SlowClient.total_length conn = Py.len data + SlowClient.total_length conn'
  /\ (if Py.truthy data then (SlowClient.pending conn' < SlowClient.pending conn)%nat
      else conn' = [] /\ SlowClient.bytes conn = "").
Proof.
  intros Hbuf. induction conn as [|segment later IH]; cbn [SlowClient.recv].
  - cbn. repeat split; lia.
  - destruct (Py.truthy segment) eqn:Hsegment.
    + pose proof (take_drop bufsize segment) as Hsplit.
      pose proof (length_take bufsize segment) as Htake.
      pose proof (length_drop bufsize segment) as Hdrop.
      apply truthy_length in Hsegment.
      assert (Py.truthy (Py.take bufsize segment) = true) as Hdata.
      { apply truthy_length. lia. }
      assert (Py.len segment
              = Py.len (Py.take bufsize segment) + Py.len (Py.drop bufsize segment))
        as Hlen.
      { unfold Py.len. rewrite <- Hsplit at 1. rewrite str_length_app. lia. }
      rewrite Hdata. split; [lia|].
      destruct (Py.truthy (Py.drop bufsize segment)) eqn:Hrest.
      * rewrite !bytes_cons, !total_length_cons, !pending_cons.
        split; [by rewrite <- str_app_assoc, Hsplit|]. split; lia.
      * apply truthy_false in Hrest. rewrite Hrest in Hsplit, Hdrop, Hlen.
        rewrite str_app_nil_r in Hsplit.
        rewrite bytes_cons, total_length_cons, pending_cons, Hsplit.
        split; [reflexivity|]. change (Py.len "") with 0 in Hlen. split; lia.
    + apply truthy_false in Hsegment as ->.
      destruct (SlowClient.recv bufsize later) as [data conn'].
      destruct IH as (Hlen & Hbytes & Htotal & Hcase).
      rewrite bytes_cons, total_length_cons, pending_cons.
      split; [exact Hlen|]. split; [exact Hbytes|]. split.
      * change (Py.len "") with 0. lia.
      * destruct (Py.truthy data); [|exact Hcase]. simpl. lia.
Qed.

(** The loop, with fuel above the bound, reaches the [break]: it has
    received the bytes of the response in chunks of at most 1024 bytes,
    none empty, and then an empty one. *)
Lemma read_loop_spec (fuel : nat) (conn : SlowClient.connection) (total : Z)
    (log : list SlowClient.action) :
  (SlowClient.pending conn < fuel)%nat ->
  exists received,
    SlowClient.read_loop fuel (SlowClient.State conn total log)
    = Some (SlowClient.State [] (total + SlowClient.total_length received)
              (log ++ SlowClient.reads_log total received ++ [SlowClient.Recv 1024 ""]))
    /\ Forall (fun data => data <> "" /\ (String.length data <= 1024)%nat) received
    /\ SlowClient.bytes received = SlowClient.bytes conn
    /\ SlowClient.total_length received = SlowClient.total_length conn.
Proof.
  revert conn total log; induction fuel as [|fuel IH]; intros conn total log Hfuel;
    [lia|].
  cbn [SlowClient.read_loop SlowClient.conn SlowClient.total_bytes SlowClient.log].
  pose proof (recv_spec 1024 conn ltac:(lia)) as Hrecv.
  destruct (SlowClient.recv 1024 conn) as [data conn'].
  destruct Hrecv as (Hlen & Hbytes & Htotal & Hcase).
  destruct (Py.truthy data) eqn:Hdata; cbn [negb].
  - destruct (IH conn' (total + Py.len data)
                (((log ++ [SlowClient.Recv 1024 data])
                  ++ [SlowClient.Print
                        (Py.CR +:+ "Received " +:+ Py.str (total + Py.len data)
                         +:+ " bytes...");
                      SlowClient.SleepMs 50])) ltac:(lia))
      as (received & Hloop & Hall & Hb & Ht).
    exists (data :: received). rewrite Hloop. split; [|split; [|split]].
    + cbn [SlowClient.reads_log]. rewrite total_length_cons.
      rewrite <- !(assoc_L (++)). cbn [app].
      f_equal. f_equal. lia.
    + constructor; [|exact Hall]. split; [|exact Hlen].
      intros ->. discriminate Hdata.
    + by rewrite bytes_cons, Hb, Hbytes.
    + rewrite total_length_cons. lia.
  - apply truthy_false in Hdata as ->. destruct Hcase as [-> Hempty].
    exists []. split; [|split; [|split]].
    + cbn [SlowClient.reads_log SlowClient.total_length foldr app]. do 2 f_equal. lia.
    + constructor.
    + by rewrite Hempty.
    + rewrite Htotal. reflexivity.
Qed.

Lemma chunks_app (actions later : list SlowClient.action) :
  SlowClient.chunks (actions ++ later)
  = SlowClient.chunks actions ++ SlowClient.chunks later.
Proof.
  induction actions as [|[] actions IH]; cbn [app SlowClient.chunks]; [done|..];
    by rewrite ?IH.
Qed.

Lemma chunks_reads_log (total : Z) (received : list string) :
  SlowClient.chunks (SlowClient.reads_log total received) = received.
Proof.
  revert total; induction received as [|data received IH]; intros total;
    cbn [SlowClient.reads_log SlowClient.chunks]; [done|]. by rewrite IH.
Qed.

(** C7.  Against a server that sends a finite response and closes, the
    client finishes.  Every [recv] asks for at most 1024 bytes and gets at
    most that many; after each chunk that is not empty the client prints
    the count and sleeps 50 milliseconds; the empty read is the last one
    and only the close follows it; and [total_bytes] is in the end the sum
    of the lengths of the chunks received, which is the length of the
    response, whose bytes the chunks are. *)
Theorem slow_client_total (response : SlowClient.connection) :
  exists fuel received,
    let log :=
      [SlowClient.Connect SlowClient.HOST SlowClient.PORT;
       SlowClient.SendAll SlowClient.request;
       SlowClient.Print ("Request sent. Reading slowly..." +:+ Py.LF)]
      ++ SlowClient.reads_log 0 received
      ++ [SlowClient.Recv 1024 ""; SlowClient.Close] in
    SlowClient.client fuel response
    = Some (SlowClient.State [] (SlowClient.total_length received) log)
    /\ SlowClient.chunks log = received ++ [""]
    /\ Forall (fun data => data <> "" /\ (String.length data <= 1024)%nat) received
    /\ SlowClient.bytes received = SlowClient.bytes response
    /\ SlowClient.total_length received = SlowClient.total_length response
    /\ SlowClient.total_length received = Py.len (SlowClient.bytes response).
Proof.
  exists (S (SlowClient.pending response)).
  destruct (read_loop_spec (S (SlowClient.pending response)) response 0
              [SlowClient.Connect SlowClient.HOST SlowClient.PORT;
               SlowClient.SendAll SlowClient.request;
               SlowClient.Print ("Request sent. Reading slowly..." +:+ Py.LF)]
              ltac:(lia)) as (received & Hloop & Hall & Hbytes & Htotal).
  exists received. intros log. unfold SlowClient.client. rewrite Hloop.
  split; [|split; [|split; [exact Hall|split; [exact Hbytes|split; [exact Htotal|]]]]].
  - cbn [mbind option_bind SlowClient.conn SlowClient.total_bytes SlowClient.log].
    subst log. rewrite <- !(assoc_L (++)). reflexivity.
  - subst log. rewrite !chunks_app, chunks_reads_log. reflexivity.
  - rewrite <- Hbytes. clear. induction received as [|data received IH]; [reflexivity|].
    rewrite bytes_cons, total_length_cons, IH. unfold Py.len.
    rewrite str_length_app. lia.
Qed.

Example slow_client_sample :
  SlowClient.client 4 ["abc"; ""; "de"]
  = Some (SlowClient.State [] 5
            ([SlowClient.Connect "127.0.0.1" 8080;
              SlowClient.SendAll SlowClient.request;
              SlowClient.Print ("Request sent. Reading slowly..." +:+ Py.LF);
              SlowClient.Recv 1024 "abc";
              SlowClient.Print (Py.CR +:+ "Received 3 bytes...");
              SlowClient.SleepMs 50;
              SlowClient.Recv 1024 "de";
              SlowClient.Print (Py.CR +:+ "Received 5 bytes...");
              SlowClient.SleepMs 50;
              SlowClient.Recv 1024 "";
              SlowClient.Close])).
Proof. vm_compute. reflexivity. Qed.

End ClientClaims.

(** * Further facts about the scripts *)

(** ** Integers and their decimal form *)

Section IntStr.

Lemma digit_value_pretty_char (d : N) :
  (d < 10)%N -> Py.digit_value (pretty_N_char d) = Some (Z.of_N d).
Proof.
  intros Hd.
  assert (d = 0 \/ d = 1 \/ d = 2 \/ d = 3 \/ d = 4 \/ d = 5 \/ d = 6 \/ d = 7
          \/ d = 8 \/ d = 9)%N as Hcases by lia.
  repeat (destruct Hcases as [->|Hcases]; [reflexivity|]). by subst d.
Qed.

Lemma length_pretty_N_go (x : N) (s : string) :
  String.length (pretty_N_go x s)
  = (String.length (pretty_N_go x "") + String.length s)%nat.
Proof.
  revert s. induction (N.lt_wf_0 x) as [x _ IH]; intros s.
  destruct (decide (x = 0%N)) as [->|Hx]; [by rewrite !pretty_N_go_0|].
  rewrite !(pretty_N_go_step x) by lia.
  rewrite (IH (x `div` 10)%N) by (apply N.div_lt; lia).
  rewrite (IH (x `div` 10)%N ltac:(apply N.div_lt; lia) (String _ "")).
  simpl. lia.
Qed.

(** The decimal form of a positive number starts with a digit. *)
Lemma pretty_N_go_head (x : N) (s : string) :
  (0 < x)%N -> exists d rest, pretty_N_go x s = String (pretty_N_char d) rest.
Proof.
  revert s. induction (N.lt_wf_0 x) as [x _ IH]; intros s Hx.
  rewrite pretty_N_go_step by done.
  destruct (decide (x `div` 10 = 0)%N) as [->|Hdiv].
  - rewrite pretty_N_go_0. eauto.
  - apply IH; [apply N.div_lt; lia|by apply N.neq_0_lt_0].
Qed.

(** [int] reads the digits of a decimal form, and counts them. *)
Lemma int_digits_pretty (x : N) (s : string) (prev : bool) :
  (0 < x)%N ->
  Py.int_digits prev 0 0 (pretty_N_go x s)
  = Py.int_digits true (String.length (pretty_N_go x "")) (Z.of_N x) s.
Proof.
  revert s prev. induction (N.lt_wf_0 x) as [x _ IH]; intros s prev Hx.
  rewrite !(pretty_N_go_step x) by done.
  pose proof (digit_value_pretty_char (x `mod` 10)%N ltac:(by apply N.mod_lt)) as Hdigit.
  destruct (decide (x `div` 10 = 0)%N) as [Hdiv|Hdiv].
  - rewrite Hdiv, !pretty_N_go_0. cbn [Py.int_digits String.length]. rewrite Hdigit.
    f_equal. pose proof (N.div_mod x 10 ltac:(done)) as Hx10. rewrite Hdiv in Hx10.
    set (r := (x `mod` 10)%N) in *. lia.
  - rewrite (IH (x `div` 10)%N);
      [|apply N.div_lt; lia|by apply N.neq_0_lt_0].
    rewrite (length_pretty_N_go _ (String _ "")).
    cbn [Py.int_digits String.length]. rewrite Hdigit.
    pose proof (N.div_mod x 10 ltac:(done)) as Hx10.
    set (q := (x `div` 10)%N) in *. set (r := (x `mod` 10)%N) in *.
    f_equal; lia.
Qed.

Lemma int_parse_digit_head (d : N) (rest : string) :
  Py.int_parse (String (pretty_N_char d) rest)
  = Py.int_digits false 0 0 (String (pretty_N_char d) rest).
Proof. unfold pretty_N_char. by repeat case_match. Qed.

Lemma int_parse_pretty_N (x : N) :
  (0 < x)%N ->
  Py.int_parse (pretty_N_go x "")
  = Py.int_finish (String.length (pretty_N_go x "")) (Z.of_N x) "".
Proof.
  intros Hx. destruct (pretty_N_go_head x "" Hx) as (d & rest & Hhead).
  rewrite Hhead at 1. rewrite int_parse_digit_head, <- Hhead.
  by rewrite int_digits_pretty.
Qed.

Lemma str_pos (p : positive) : Py.str (Z.pos p) = pretty_N_go (N.pos p) "".
Proof. reflexivity. Qed.

Lemma str_neg (p : positive) :
  Py.str (Z.neg p) = String "-" (pretty_N_go (N.pos p) "").
Proof. reflexivity. Qed.

(** [int(str(n)) == n], for a number whose digits are within the limit of
    the conversion. *)
Lemma int_str (n : Z) :
  (String.length (Py.str (Z.abs n)) <= Py.int_max_str_digits)%nat ->
  Py.int (Py.str n) = Some n.
Proof.
  destruct n as [|p|p]; [reflexivity|..];
    [change (Z.abs (Z.pos p)) with (Z.pos p)|change (Z.abs (Z.neg p)) with (Z.pos p)];
    rewrite str_pos; intros Hlen;
    apply Nat.leb_le in Hlen; unfold Py.int.
  - rewrite int_parse_pretty_N by lia. unfold Py.int_finish.
    rewrite Nat.ltb_antisym, Hlen. reflexivity.
  - rewrite str_neg.
    change (Py.int_parse (String "-" (pretty_N_go (N.pos p) "")))
      with (Py.int_negate (Py.int_digits false 0 0 (pretty_N_go (N.pos p) ""))).
    rewrite int_digits_pretty by lia. cbn [Py.int_digits]. unfold Py.int_finish.
    rewrite Nat.ltb_antisym, Hlen. reflexivity.
Qed.

End IntStr.

(** ** More about [status.py] *)

Section StatusExtras.

(** The decimal form of an integer holds digits and a sign only. *)
Lemma str_without (c : ascii) (n : Z) :
  Py.digit_value c = None -> c <> "-"%char -> Py.contains c (Py.str n) = false.
Proof.
  intros Hdigit Hsign.
  assert (forall d, Ascii.eqb (pretty_N_char d) c = false) as Hchar.
  { intros d. apply Ascii.eqb_neq. intros <-. revert Hdigit.
    unfold pretty_N_char. by repeat case_match. }
  assert (forall x s, Py.contains c s = false ->
            Py.contains c (pretty_N_go x s) = false) as Hgo.
  { intros x. induction (N.lt_wf_0 x) as [x _ IH]; intros s Hs.
    destruct (decide (x = 0%N)) as [->|Hx]; [by rewrite pretty_N_go_0|].
    rewrite pretty_N_go_step by lia. apply IH; [apply N.div_lt; lia|].
    cbn [Py.contains]. by rewrite Hchar, Hs. }
  unfold Py.str, pretty, pretty_Z. destruct n as [|p|p].
  - cbn [Py.contains]. change "0"%char with (pretty_N_char 0). by rewrite Hchar.
  - unfold pretty, pretty_positive, pretty, pretty_N.
    destruct (decide (N.pos p = 0%N)) as [|_]; [done|]. by apply Hgo.
  - unfold pretty, pretty_positive, pretty, pretty_N.
    destruct (decide (N.pos p = 0%N)) as [|_]; [done|].
    change ("-" +:+ ?s) with (String "-" s). cbn [Py.contains].
    assert (Ascii.eqb "-" c = false) as -> by (apply Ascii.eqb_neq; congruence).
    by apply Hgo.
Qed.

(** The body that [status.py] prints, written out. *)
Lemma status_body_text (st : Status.locals) :
  let code := Status.status_code st in
  let phrase := StatusPure.phrase code in
  StatusPure.body st
  = "<!DOCTYPE html>" +:+ Py.LF +:+ "<html>" +:+ Py.LF
    +:+ "<head><title>" +:+ Py.str code +:+ " " +:+ phrase +:+ "</title></head>" +:+ Py.LF
    +:+ "<body>" +:+ Py.LF
    +:+ "<h1>" +:+ Py.str code +:+ " " +:+ phrase +:+ "</h1>" +:+ Py.LF
    +:+ "<p>CGI script returned status code " +:+ Py.str code +:+ "</p>" +:+ Py.LF
    +:+ match Status.redirect_target st with
        | Some url =>
            "<p>Redirect to: <a href='" +:+ url +:+ "'>" +:+ url +:+ "</a></p>" +:+ Py.LF
        | None => ""
        end
    +:+ "</body>" +:+ Py.LF +:+ "</html>" +:+ Py.LF.
Proof.
  intros code phrase. unfold StatusPure.body, run, Status.output_body.
  fold code. fold phrase.
  destruct (Status.redirect_target st) as [url|];
    unfold print, emit, mbind, M_bind, bind, mret, M_ret, ret;
    cbn [w_stdin w_trace app snd stdout]; autorewrite with str; reflexivity.
Qed.

(** X1.  [status.py] ends normally for every query string: the field of
    index 1 that it takes from a parameter always exists, and [int] is the
    only call that can raise, inside the [try].  The output always ends with
    the two closing tags. *)
Theorem status_always_returns (query : string) :
  fst (Status.output query) = Return tt
  /\ exists page,
       snd (Status.output query) = page +:+ "</body>" +:+ Py.LF +:+ "</html>" +:+ Py.LF.
Proof.
  rewrite status_output. split; [reflexivity|]. cbn [snd].
  rewrite status_body_text.
  eexists. rewrite <- !str_app_assoc. reflexivity.
Qed.

(** X2.  The page of [status.py] is determined by the status code and the
    redirect URL that the loop leaves.  The status line, the title, the
    heading and the paragraph carry the same code, the first three the same
    phrase; the [Location] header and the paragraph with the link are both
    there, with the same URL, or both absent, and they are absent when no
    redirect URL was given or when it is empty. *)
Theorem status_page (query : string) :
  let st := StatusPure.parsed query in
  let code := Status.status_code st in
  let phrase := default "Unknown" (Status.phrases !! code) in
  let target :=
    match Status.redirect_url st with
    | Some (String c url) => Some (String c url)
    | Some EmptyString | None => None
    end in
  Status.output query
  = (Return tt,
     "Status: " +:+ Py.str code +:+ " " +:+ phrase +:+ Cgi.CRLF
     +:+ match target with
         | Some url => "Location: " +:+ url +:+ Cgi.CRLF
         | None => ""
         end
     +:+ "Content-Type: text/html" +:+ Cgi.CRLF +:+ Cgi.CRLF
     +:+ "<!DOCTYPE html>" +:+ Py.LF +:+ "<html>" +:+ Py.LF
     +:+ "<head><title>" +:+ Py.str code +:+ " " +:+ phrase +:+ "</title></head>" +:+ Py.LF
     +:+ "<body>" +:+ Py.LF
     +:+ "<h1>" +:+ Py.str code +:+ " " +:+ phrase +:+ "</h1>" +:+ Py.LF
     +:+ "<p>CGI script returned status code " +:+ Py.str code +:+ "</p>" +:+ Py.LF
     +:+ match target with
         | Some url =>
             "<p>Redirect to: <a href='" +:+ url +:+ "'>" +:+ url +:+ "</a></p>" +:+ Py.LF
         | None => ""
         end
     +:+ "</body>" +:+ Py.LF +:+ "</html>" +:+ Py.LF).
Proof.
  intros st code phrase target. rewrite status_output. fold st.
  rewrite status_body_text. fold code.
  unfold StatusPure.headers, StatusPure.phrase. fold code. fold phrase.
  assert (Status.redirect_target st = target) as ->.
  { unfold Status.redirect_target. subst target.
    destruct (Status.redirect_url st) as [[|c url]|]; reflexivity. }
  f_equal. destruct target as [url|];
    cbn [app Cgi.header_block]; unfold Cgi.header_line, Cgi.CRLF; cbn [fst snd];
    autorewrite with str; reflexivity.
Qed.

Lemma status_step_commute (st : Status.locals) (p q : string) :
  Py.startswith "code=" p = true ->
  Py.startswith "code=" q = false ->
  StatusPure.step (StatusPure.step st p) q = StatusPure.step (StatusPure.step st q) p.
Proof.
  intros Hp Hq. unfold StatusPure.step. rewrite Hp, Hq.
  destruct (param_value p ≫= Py.int) as [code|];
    destruct (Py.startswith "redirect=" q); try reflexivity;
    destruct (param_value q) as [value|]; reflexivity.
Qed.

Lemma split_pair (p q : string) :
  Py.contains "&" p = false -> Py.contains "&" q = false ->
  Py.split "&" (p +:+ "&" +:+ q) = [p; q].
Proof.
  intros Hp Hq. change ("&" +:+ q) with (String "&" q).
  by rewrite (split_app _ _ _ Hp), (split_without _ _ Hq).
Qed.

(** X3.  A [code=] parameter and a parameter of another kind can be given
    in either order: the page is the same. *)
Theorem status_params_commute (p q : string) :
  Py.contains "&" p = false ->
  Py.contains "&" q = false ->
  Py.startswith "code=" p = true ->
  Py.startswith "code=" q = false ->
  Status.output (p +:+ "&" +:+ q) = Status.output (q +:+ "&" +:+ p).
Proof.
  intros Hp Hq Hcode Hother. rewrite !status_output.
  assert (StatusPure.parsed (p +:+ "&" +:+ q) = StatusPure.parsed (q +:+ "&" +:+ p)) as ->;
    [|reflexivity].
  unfold StatusPure.parsed. rewrite (split_pair p q Hp Hq), (split_pair q p Hq Hp).
  cbn [fold_left]. by apply status_step_commute.
Qed.

Lemma status_params_commute_witness :
  Status.output ("code=404" +:+ "&" +:+ "redirect=/gone")
  = Status.output ("redirect=/gone" +:+ "&" +:+ "code=404").
Proof. apply status_params_commute; reflexivity. Defined.

(** X4.  For every integer [n] whose decimal form is within the limit of
    the conversion, the query [code=n] gives the status line of [n]:
    [status.py] reads back the decimal form that it prints. *)
Theorem status_decimal_code (n : Z) :
  (String.length (Py.str (Z.abs n)) <= Py.int_max_str_digits)%nat ->
  exists rest,
    Status.output ("code=" +:+ Py.str n)
    = (Return tt,
       "Status: " +:+ Py.str n +:+ " "
       +:+ default "Unknown" (Status.phrases !! n) +:+ Cgi.CRLF +:+ rest).
Proof.
  intros Hdigits.
  destruct (status_output_first_line ("code=" +:+ Py.str n)) as [rest Hout].
  exists rest. rewrite Hout. f_equal.
  assert (Py.contains "&" ("code=" +:+ Py.str n) = false) as Hamp.
  { rewrite contains_app. by rewrite (str_without "&" n). }
  rewrite (status_parsed_code _ [] [] ("code=" +:+ Py.str n) n).
  - unfold StatusPure.status_line, StatusPure.phrase, Cgi.CRLF.
    by autorewrite with str.
  - by rewrite (split_without _ _ Hamp).
  - rewrite assigned_code_literal by (by apply str_without). by apply int_str.
  - constructor.
Qed.

Lemma status_decimal_code_witness :
  exists rest,
    Status.output ("code=" +:+ Py.str (-418))
    = (Return tt,
       "Status: " +:+ Py.str (-418) +:+ " "
       +:+ default "Unknown" (Status.phrases !! (-418)) +:+ Cgi.CRLF +:+ rest).
Proof. apply (status_decimal_code (-418)). vm_compute. lia. Defined.

End StatusExtras.

(** ** More about [slow.py] *)

Section SlowExtras.

Lemma slow_fold_unassigned (params : list string) (sleep_time : Z) :
  Forall (fun param => SlowPure.assigned_sleep param = None) params ->
  fold_left SlowPure.step params sleep_time = sleep_time.
Proof.
  intros Hall; revert sleep_time; induction Hall as [|param params Hparam _ IH];
    intros sleep_time; cbn [fold_left]; [reflexivity|].
  by rewrite IH, slow_step_assigned, Hparam.
Qed.

Lemma assigned_sleep_none_all (params : list string) :
  (forall param value, param ∈ params -> Py.startswith "sleep=" param = true ->
     param_value param = Some value -> Py.int value = None) ->
  Forall (fun param => SlowPure.assigned_sleep param = None) params.
Proof.
  intros Hall. apply Forall_forall. intros param Hin.
  unfold SlowPure.assigned_sleep.
  destruct (Py.startswith "sleep=" param) eqn:Hstart; [|reflexivity].
  destruct (param_value param) as [value|] eqn:Hvalue; [|reflexivity].
  cbn [mbind option_bind]. by apply (Hall param value).
Qed.

(** X5.  The sleep duration is 60 seconds when the query is empty or when
    no parameter that starts with [sleep=] has a value that [int] accepts;
    otherwise it is the value of the last such parameter.  Reading the
    query neither writes nor raises. *)
Theorem slow_sleep_time (query : string) (w : world) :
  ((forall param value, param ∈ Py.split "&" query ->
      Py.startswith "sleep=" param = true ->
      param_value param = Some value -> Py.int value = None) ->
   Slow.parse_query query w = (Return 60, w))
  /\ (forall earlier later value seconds,
        Py.split "&" query = earlier ++ ("sleep=" +:+ value) :: later ->
        Py.int (before "=" value) = Some seconds ->
        (forall param value', param ∈ later -> Py.startswith "sleep=" param = true ->
           param_value param = Some value' -> Py.int value' = None) ->
        Slow.parse_query query w = (Return seconds, w)).
Proof.
  split.
  - intros Hall%assigned_sleep_none_all. rewrite slow_parse_query_run.
    unfold SlowPure.sleep_time. destruct (Py.truthy query); [|reflexivity].
    by rewrite (slow_fold_unassigned _ _ Hall).
  - intros earlier later value seconds Hsplit Hint Hlater%assigned_sleep_none_all.
    rewrite slow_parse_query_run. unfold SlowPure.sleep_time.
    assert (Py.truthy query = true) as ->.
    { destruct query; [|reflexivity]. by destruct earlier as [|? []]. }
    rewrite Hsplit, fold_left_app. cbn [fold_left].
    rewrite (slow_fold_unassigned _ _ Hlater), slow_step_assigned.
    by rewrite assigned_sleep_key, Hint.
Qed.

Lemma slow_sleep_time_witness :
  Slow.parse_query "x=1&sleep=abc" (World (inr "") [])
  = (Return 60, World (inr "") []).
Proof.
  apply (proj1 (slow_sleep_time "x=1&sleep=abc" (World (inr "") []))).
  intros param value Hin Hstart Hvalue. cbn in Hin.
  repeat (apply elem_of_cons in Hin as [->|Hin]);
    first [discriminate Hstart | by injection Hvalue as <- | by apply elem_of_nil in Hin].
Defined.

Lemma slow_sleep_time_decimal (n : Z) :
  (String.length (Py.str (Z.abs n)) <= Py.int_max_str_digits)%nat ->
  SlowPure.sleep_time ("sleep=" +:+ Py.str n) = n.
Proof.
  intros Hdigits. unfold SlowPure.sleep_time.
  assert (Py.contains "&" ("sleep=" +:+ Py.str n) = false) as Hamp.
  { rewrite contains_app. by rewrite (str_without "&" n). }
  change (Py.truthy ("sleep=" +:+ Py.str n)) with true. cbv iota.
  rewrite (split_without _ _ Hamp). cbn [fold_left].
  rewrite slow_step_assigned, assigned_sleep_key.
  rewrite before_without by (by apply str_without). by rewrite int_str.
Qed.

(** X6.  For every duration [n] that [time.sleep] accepts (and whose
    decimal form is within the limit of the conversion), the query
    [sleep=n] makes [slow.py] sleep [n] seconds, once, and then write its
    four lines, the third of which reports [n]. *)
Theorem slow_sleeps_requested (sleep_max n : Z) :
  0 <= n <= sleep_max ->
  (String.length (Py.str (Z.abs n)) <= Py.int_max_str_digits)%nat ->
  Slow.run_query sleep_max ("sleep=" +:+ Py.str n)
  = (Return tt,
     World (inr "")
       [Sleep n;
        Write ("Content-Type: text/plain" +:+ Py.CR +:+ Py.LF);
        Write (Py.CR +:+ Py.LF);
        Write ("Slept for " +:+ Py.str n +:+ " seconds" +:+ Py.LF);
        Write ("This should not appear if timeout is working!" +:+ Py.LF)]).
Proof.
  intros Hn Hdigits.
  rewrite slow_run_accepted by (by rewrite (slow_sleep_time_decimal n Hdigits)).
  by rewrite (slow_sleep_time_decimal n Hdigits).
Qed.

Lemma slow_sleeps_requested_witness :
  Slow.run_query 3600 ("sleep=" +:+ Py.str 7)
  = (Return tt,
     World (inr "")
       [Sleep 7;
        Write ("Content-Type: text/plain" +:+ Py.CR +:+ Py.LF);
        Write (Py.CR +:+ Py.LF);
        Write ("Slept for " +:+ Py.str 7 +:+ " seconds" +:+ Py.LF);
        Write ("This should not appear if timeout is working!" +:+ Py.LF)]).
Proof. apply (slow_sleeps_requested 3600 7); [lia|vm_compute; lia]. Defined.

(** X7.  When the duration read from the query is negative, or longer
    than the platform sleeps, [slow.py] ends with the exception of
    [time.sleep], which it does not catch: it has not slept and has written
    nothing.  The exception is [OverflowError] for a duration beyond
    9223372036 seconds on either side, which the conversion to nanoseconds
    refuses before the sign is looked at; the [ValueError] of a negative
    sleep length for another negative one; and an [OSError] for another
    one that is too long. *)
Theorem slow_refused_sleep (sleep_max : Z) (query : string) :
  let seconds := SlowPure.sleep_time query in
  seconds < 0 \/ sleep_max < seconds ->
  exists e,
    Slow.run_query sleep_max query = (Raise e, World (inr "") [])
    /\ (seconds < - 9223372036 \/ 9223372036 < seconds ->
        e = Exn OverflowError (Message "timestamp too large to convert to C _PyTime_t"))
    /\ (- 9223372036 <= seconds < 0 ->
        e = Exn ValueError (Message "sleep length must be non-negative"))
    /\ (0 <= seconds <= 9223372036 -> exn_class_of e = OSError).
Proof.
  intros seconds Hrefused. rewrite slow_run. fold seconds.
  assert (Py.time_max = 9223372036) as Hmax by reflexivity.
  destruct (Z.ltb_spec seconds (- Py.time_max));
    [eexists; split; [reflexivity|]; split; [reflexivity|]; split; lia|].
  destruct (Z.ltb_spec seconds 0);
    [eexists; split; [reflexivity|]; split; [lia|]; split; [reflexivity|lia]|].
  destruct (Z.ltb_spec sleep_max seconds); [|lia].
  destruct (Z.ltb_spec Py.time_max seconds); eexists; (split; [reflexivity|]).
  - split; [reflexivity|]. split; lia.
  - split; [lia|]. split; [lia|reflexivity].
Qed.

Lemma slow_refused_sleep_witness :
  exists e,
    Slow.run_query 3600 "sleep=-9223372037" = (Raise e, World (inr "") [])
    /\ (SlowPure.sleep_time "sleep=-9223372037" < - 9223372036
        \/ 9223372036 < SlowPure.sleep_time "sleep=-9223372037" ->
        e = Exn OverflowError (Message "timestamp too large to convert to C _PyTime_t"))
    /\ (- 9223372036 <= SlowPure.sleep_time "sleep=-9223372037" < 0 ->
        e = Exn ValueError (Message "sleep length must be non-negative"))
    /\ (0 <= SlowPure.sleep_time "sleep=-9223372037" <= 9223372036 ->
        exn_class_of e = OSError).
Proof.
  apply (slow_refused_sleep 3600 "sleep=-9223372037"). left. vm_compute. reflexivity.
Defined.

(** X8.  When [slow.py] gets through its sleep, its output follows the
    output contract: the single header [Content-Type: text/plain], the
    blank line, and a body of two lines, the first of which reports the
    duration slept. *)
Theorem slow_output_framed (sleep_max : Z) (query : string) :
  0 <= SlowPure.sleep_time query <= sleep_max ->
  let out := stdout (w_trace (snd (Slow.run_query sleep_max query))) in
  let body :=
    "Slept for " +:+ Py.str (SlowPure.sleep_time query) +:+ " seconds" +:+ Py.LF
    +:+ "This should not appear if timeout is working!" +:+ Py.LF in
  fst (Slow.run_query sleep_max query) = Return tt
  /\ Cgi.framed out [("Content-Type", "text/plain")] body
  /\ Cgi.body_of out = Some body.
Proof.
  intros Hseconds out body. subst out. rewrite (slow_run_accepted _ _ Hseconds).
  cbn [fst snd w_trace stdout].
  match goal with |- _ /\ Cgi.framed ?text _ _ /\ _ =>
    assert (Cgi.framed text [("Content-Type", "text/plain")] body) as Hframed
  end.
  { split; [reflexivity|]. subst body.
    cbn [Cgi.header_block]. unfold Cgi.header_line, Cgi.CRLF. cbn [fst snd].
    autorewrite with str. reflexivity. }
  split; [reflexivity|]. split; [exact Hframed|].
  by apply (framed_body_of _ [("Content-Type", "text/plain")]).
Qed.

Lemma slow_output_framed_witness :
  Cgi.body_of (stdout (w_trace (snd (Slow.run_query 3600 "sleep=2"))))
  = Some ("Slept for " +:+ Py.str (SlowPure.sleep_time "sleep=2") +:+ " seconds" +:+ Py.LF
          +:+ "This should not appear if timeout is working!" +:+ Py.LF).
Proof. apply (slow_output_framed 3600 "sleep=2"). vm_compute. split; discriminate. Defined.

End SlowExtras.

(** ** More about [test.py] *)

Section TestExtras.

Lemma for_map {A} (xs : list A) (body : A -> M unit) (f : A -> event) :
  (forall x w, body x w = (Return tt, World (w_stdin w) (w_trace w ++ [f x]))) ->
  forall w, for_ xs body w = (Return tt, World (w_stdin w) (w_trace w ++ map f xs)).
Proof.
  intros Hbody. unfold for_. induction xs as [|x xs IH]; intros w; cbn [for_each map].
  - unfold ret. rewrite (right_id_L [] (++)). by destruct w.
  - rewrite (bind_run _ _ w _ tt (Hbody x w)). rewrite IH. cbn [w_stdin w_trace].
    by rewrite <- (assoc_L (++)).
Qed.

Ltac step_print :=
  match goal with
  | |- context [(print ?s ≫= ?k) ?w] =>
      rewrite (bind_run (print s) k w
                 (World (w_stdin w) (w_trace w ++ [Write (s +:+ Py.LF)])) tt eq_refl)
  end.

(** X9.  Step 3 of [test.py] prints, after the opening of the page, one
    row for each of the thirteen variables of [cgi_vars], in their order:
    the value of the variable in the environment, or [<not set>] when the
    environment does not have it; then it closes the table.  It neither
    reads standard input nor raises. *)
Theorem test_environment_rows (environ : gmap string string) (w : world) :
  Test.output_environment environ w
  = (Return tt,
     World (w_stdin w)
       (w_trace w
        ++ [Write ("<!DOCTYPE html>" +:+ Py.LF);
            Write ("<html>" +:+ Py.LF);
            Write ("<head><title>CGI Test</title></head>" +:+ Py.LF);
            Write ("<body>" +:+ Py.LF);
            Write ("<h1>CGI Test Script - Python</h1>" +:+ Py.LF);
            Write ("<p>If you see this, CGI execution is working!</p>" +:+ Py.LF);
            Write ("<h2>Environment Variables</h2>" +:+ Py.LF);
            Write ("<table border='1'>" +:+ Py.LF);
            Write ("<tr><th>Variable</th><th>Value</th></tr>" +:+ Py.LF)]
        ++ map (fun var =>
                  Write ("<tr><td>" +:+ var +:+ "</td><td>"
                         +:+ default "<not set>" (environ !! var)
                         +:+ "</td></tr>" +:+ Py.LF))
             Test.cgi_vars
        ++ [Write ("</table>" +:+ Py.LF)]))
  /\ length Test.cgi_vars = 13%nat.
Proof.
  split; [|reflexivity]. unfold Test.output_environment.
  repeat step_print.
  match goal with
  | |- context [(for_ ?xs ?body ≫= ?k) ?w'] =>
      rewrite (bind_run (for_ xs body) k w' _ tt
                 (for_map xs body (TestRows.env_row environ)
                    ltac:(intros x w0; unfold TestRows.env_row, environ_get, print, emit;
                          autorewrite with str; reflexivity) w'))
  end.
  unfold print, emit. cbn [w_stdin w_trace]. f_equal. f_equal.
  rewrite <- !(assoc_L (++)). cbn [app]. reflexivity.
Qed.

Lemma split1_before_after (sep : ascii) (s : string) :
  Py.contains sep s = true ->
  Py.split1 sep s = [before sep s; after sep s]
  /\ s = before sep s +:+ String sep (after sep s)
  /\ Py.contains sep (before sep s) = false.
Proof.
  unfold before, after. induction s as [|c s IH]; cbn [Py.contains Py.split1 Py.split];
    [discriminate|].
  destruct (Ascii.eqb c sep) eqn:Hc.
  - intros _. apply Ascii.eqb_eq in Hc as ->. repeat split; reflexivity.
  - cbn [orb]. intros Hs. destruct (IH Hs) as (Hsplit1 & Hs' & Hfree).
    destruct (split_nonempty sep s) as (field & fields & Hsplit).
    rewrite Hsplit in Hs', Hfree, Hsplit1 |- *. rewrite Hsplit1.
    split; [reflexivity|]. split.
    + rewrite str_app_cons. by rewrite <- Hs'.
    + cbn [Py.contains]. by rewrite Hc, Hfree.
Qed.

Lemma join_cons (sep : ascii) (field field' : string) (fields : list string) :
  join sep (field :: field' :: fields) = field +:+ String sep (join sep (field' :: fields)).
Proof. reflexivity. Qed.

Lemma join_split (sep : ascii) (s : string) : join sep (Py.split sep s) = s.
Proof.
  induction s as [|c s IH]; [reflexivity|]. cbn [Py.split].
  destruct (split_nonempty sep s) as (field & fields & Hsplit).
  rewrite Hsplit in IH |- *.
  destruct (Ascii.eqb c sep) eqn:Hc.
  - apply Ascii.eqb_eq in Hc as ->. rewrite join_cons, IH. reflexivity.
  - destruct fields as [|field' fields].
    + cbn [join] in IH |- *. by rewrite IH.
    + rewrite join_cons in IH |- *. rewrite str_app_cons. by rewrite IH.
Qed.

Lemma output_pair_run (pair : string) (w : world) :
  Test.output_pair pair w
  = (Return tt, World (w_stdin w) (w_trace w ++ [TestRows.pair_row pair])).
Proof.
  unfold Test.output_pair, TestRows.pair_row.
  destruct (Py.contains "=" pair) eqn:Hpair.
  - destruct (split1_before_after "=" pair Hpair) as (-> & _ & _).
    unfold print, emit. by autorewrite with str.
  - unfold print, emit. by autorewrite with str.
Qed.

(** X10.  Step 4 of [test.py]: for an empty or missing query string it
    prints the two paragraphs of the hint; otherwise it prints a table with
    one row for each parameter that [&] separates, in their order.  A
    parameter with a [=] is shown as the key before its first [=] and the
    value after it, whatever the value holds, and key, [=] and value make
    up the parameter again; a parameter without [=] is shown as having no
    value.  The parameters joined by [&] are the query string.  The step
    neither reads standard input nor raises. *)
Theorem test_query_rows (environ : gmap string string) (w : world) :
  let query := default "" (environ !! "QUERY_STRING") in
  Test.output_query environ w
  = (Return tt,
     World (w_stdin w)
       (w_trace w
        ++ Write ("<h2>Query String Parameters</h2>" +:+ Py.LF)
           :: (if Py.truthy query then
                 [Write ("<table border='1'>" +:+ Py.LF);
                  Write ("<tr><th>Parameter</th><th>Value</th></tr>" +:+ Py.LF)]
                 ++ map TestRows.pair_row (Py.split "&" query)
                 ++ [Write ("</table>" +:+ Py.LF)]
               else
                 [Write ("<p><em>No query string provided</em></p>" +:+ Py.LF);
                  Write ("<p>Try: <code>?name=World&count=42</code></p>" +:+ Py.LF)])))
  /\ join "&" (Py.split "&" query) = query
  /\ (forall pair,
        Py.contains "=" pair = true ->
        TestRows.pair_row pair
        = Write ("<tr><td>" +:+ before "=" pair +:+ "</td><td>" +:+ after "=" pair
                 +:+ "</td></tr>" +:+ Py.LF)
        /\ pair = before "=" pair +:+ "=" +:+ after "=" pair
        /\ Py.contains "=" (before "=" pair) = false)
  /\ (forall pair,
        Py.contains "=" pair = false ->
        TestRows.pair_row pair
        = Write ("<tr><td>" +:+ pair +:+ "</td><td><em>no value</em></td></tr>" +:+ Py.LF)).
Proof.
  intros query. split; [|split; [apply join_split|split]].
  - unfold Test.output_query. fold (environ_get environ "QUERY_STRING" "").
    change (environ_get environ "QUERY_STRING" "") with query.
    step_print. destruct (Py.truthy query).
    + repeat step_print.
      match goal with
      | |- context [(for_ ?xs ?body ≫= ?k) ?w'] =>
          rewrite (bind_run (for_ xs body) k w' _ tt
                     (for_map xs body TestRows.pair_row output_pair_run w'))
      end.
      unfold print, emit. cbn [w_stdin w_trace]. f_equal. f_equal.
      rewrite <- !(assoc_L (++)). cbn [app]. reflexivity.
    + step_print. unfold print, emit. cbn [w_stdin w_trace]. f_equal. f_equal.
      rewrite <- !(assoc_L (++)). cbn [app]. reflexivity.
  - intros pair Hpair. unfold TestRows.pair_row. rewrite Hpair.
    destruct (split1_before_after "=" pair Hpair) as (_ & Hjoin & Hfree).
    split; [reflexivity|]. split; [exact Hjoin|exact Hfree].
  - intros pair Hpair. unfold TestRows.pair_row. by rewrite Hpair.
Qed.

Lemma test_query_rows_witness :
  TestRows.pair_row "a=b=c"
  = Write ("<tr><td>" +:+ before "=" "a=b=c" +:+ "</td><td>" +:+ after "=" "a=b=c"
           +:+ "</td></tr>" +:+ Py.LF).
Proof.
  apply (proj1 (proj2 (proj2 (test_query_rows ∅ (World (inr "") []))))). reflexivity.
Defined.

Lemma take_all (n : nat) (s : string) :
  (String.length s <= n)%nat -> Py.take n s = s /\ Py.drop n s = "".
Proof.
  revert s; induction n as [|n IH]; intros [|c s]; cbn [String.length Py.take Py.drop];
    intros Hlen; try done; [lia|].
  destruct (IH s ltac:(lia)) as [-> ->]. done.
Qed.

(** X11.  When the request method is not [POST] (the default is [GET]) or
    [CONTENT_LENGTH] is missing or empty, [test.py] does not touch standard
    input, even one whose reads would raise, and the page ends with the
    paragraph that says that there is no POST body and the closing tags. *)
Theorem test_no_post_body (read_ok : Z -> bool) (environ : gmap string string)
    (stdin : exn + string) :
  environ !! "REQUEST_METHOD" <> Some "POST"
  \/ environ !! "CONTENT_LENGTH" = None
  \/ environ !! "CONTENT_LENGTH" = Some "" ->
  fst (run (Test.main read_ok environ) stdin) = Return tt
  /\ w_stdin (snd (run (Test.main read_ok environ) stdin)) = stdin
  /\ exists page,
       stdout (w_trace (snd (run (Test.main read_ok environ) stdin)))
       = "Content-Type: text/html" +:+ Cgi.CRLF +:+ Cgi.CRLF +:+ page
         +:+ "<h2>POST Body</h2>" +:+ Py.LF
         +:+ "<p><em>No POST body (GET request or no Content-Length)</em></p>" +:+ Py.LF
         +:+ "</body>" +:+ Py.LF +:+ "</html>" +:+ Py.LF.
Proof.
  intros Hcase.
  assert (TestPure.post_body read_ok environ stdin
          = (stdin,
             [Write ("<h2>POST Body</h2>" +:+ Py.LF);
              Write ("<p><em>No POST body (GET request or no Content-Length)</em></p>"
                     +:+ Py.LF)])) as Hpost.
  { unfold TestPure.post_body, environ_get.
    assert ((default "GET" (environ !! "REQUEST_METHOD") =? "POST")%string
            && Py.truthy (default "" (environ !! "CONTENT_LENGTH")) = false) as ->;
      [|reflexivity].
    destruct Hcase as [Hmethod|[-> | ->]].
    - destruct (environ !! "REQUEST_METHOD") as [method|]; [|reflexivity].
      change (default "GET" (Some method)) with method.
      assert ((method =? "POST")%string = false) as ->; [|reflexivity].
      apply String.eqb_neq. congruence.
    - apply andb_false_r.
    - apply andb_false_r. }
  destruct (test_main_stdout read_ok environ stdin) as (page & Hrun & Hin & Hout).
  rewrite Hpost in Hin, Hout. cbn [fst snd stdout] in Hin, Hout.
  split; [exact Hrun|]. split; [exact Hin|].
  exists page. rewrite Hout. autorewrite with str. reflexivity.
Qed.

Lemma test_no_post_body_witness :
  let read_ok := fun _ : Z => true in
  let environ : gmap string string := {[ "REQUEST_METHOD" := "GET" ]} in
  fst (run (Test.main read_ok environ) (inr "unread")) = Return tt
  /\ w_stdin (snd (run (Test.main read_ok environ) (inr "unread"))) = inr "unread"
  /\ exists page,
       stdout (w_trace (snd (run (Test.main read_ok environ) (inr "unread"))))
       = "Content-Type: text/html" +:+ Cgi.CRLF +:+ Cgi.CRLF +:+ page
         +:+ "<h2>POST Body</h2>" +:+ Py.LF
         +:+ "<p><em>No POST body (GET request or no Content-Length)</em></p>" +:+ Py.LF
         +:+ "</body>" +:+ Py.LF +:+ "</html>" +:+ Py.LF.
Proof.
  intros read_ok environ. refine (test_no_post_body read_ok environ (inr "unread") _).
  left. subst environ. vm_compute. discriminate.
Defined.

(** X12.  A POST whose [CONTENT_LENGTH] is an integer within the range of
    an index, for which the interpreter has the memory, on a standard input
    that has ended: [test.py] reads the whole of it when the length is
    negative, and otherwise at most the number of characters asked for; it
    reports the number of characters that it has read, which is not
    [CONTENT_LENGTH] when that is negative or more than there is, and
    echoes them. *)
Theorem test_post_body_any_length (read_ok : Z -> bool)
    (environ : gmap string string) (content_length text : string) (length : Z) :
  environ !! "REQUEST_METHOD" = Some "POST" ->
  environ !! "CONTENT_LENGTH" = Some content_length ->
  Py.int content_length = Some length ->
  Py.ssize_t_min <= length <= Py.ssize_t_max ->
  (0 < length -> read_ok length = true) ->
  let body := if length <? 0 then text else Py.take (Z.to_nat length) text in
  let rest := if length <? 0 then "" else Py.drop (Z.to_nat length) text in
  fst (run (Test.main read_ok environ) (inr text)) = Return tt
  /\ w_stdin (snd (run (Test.main read_ok environ) (inr text))) = inr rest
  /\ body +:+ rest = text
  /\ (length < 0 \/ Py.len text <= length -> body = text /\ rest = "")
  /\ exists page,
       stdout (w_trace (snd (run (Test.main read_ok environ) (inr text))))
       = "Content-Type: text/html" +:+ Cgi.CRLF +:+ Cgi.CRLF +:+ page
         +:+ "<p>Received " +:+ Py.str (Py.len body) +:+ " bytes:</p>" +:+ Py.LF
         +:+ "<pre>" +:+ body +:+ "</pre>" +:+ Py.LF
         +:+ "</body>" +:+ Py.LF +:+ "</html>" +:+ Py.LF.
Proof.
  intros Hmethod Hlength Hint Hrange Hmemory body rest.
  assert (TestPure.read read_ok length (inr text) = inr (body, inr rest)) as Hread.
  { unfold TestPure.read.
    destruct (Z.ltb_spec length Py.ssize_t_min); [lia|].
    destruct (Z.ltb_spec Py.ssize_t_max length); [lia|]. cbn [orb].
    destruct (Z.eqb_spec length 0) as [->|Hzero]; [reflexivity|].
    destruct (Z.ltb_spec 0 length) as [Hpos|Hpos]; [rewrite (Hmemory Hpos)|];
      cbn [andb negb]; subst body rest; by destruct (length <? 0). }
  assert (TestPure.post_body read_ok environ (inr text)
          = (inr rest,
             [Write ("<h2>POST Body</h2>" +:+ Py.LF);
              Write ("<p>Received " +:+ Py.str (Py.len body) +:+ " bytes:</p>" +:+ Py.LF);
              Write ("<pre>" +:+ body +:+ "</pre>" +:+ Py.LF)])) as Hpost.
  { unfold TestPure.post_body.
    rewrite (environ_get_some _ _ _ _ Hmethod), (environ_get_some _ _ _ _ Hlength).
    rewrite (int_truthy _ _ Hint), Hint. cbn [andb String.eqb Ascii.eqb Bool.eqb].
    rewrite Hread. reflexivity. }
  destruct (test_main_stdout read_ok environ (inr text)) as (page & Hrun & Hin & Hout).
  rewrite Hpost in Hin, Hout. cbn [fst snd stdout] in Hin, Hout.
  split; [exact Hrun|]. split; [exact Hin|]. split; [|split].
  - subst body rest. destruct (length <? 0); [apply str_app_nil_r|apply take_drop].
  - intros Hall. subst body rest. destruct (length <? 0) eqn:Hneg; [split; reflexivity|].
    apply take_all. unfold Py.len in Hall. lia.
  - exists (page +:+ "<h2>POST Body</h2>" +:+ Py.LF).
    rewrite Hout. autorewrite with str. reflexivity.
Qed.

Lemma test_post_body_any_length_witness :
  let read_ok := fun _ : Z => true in
  let environ : gmap string string :=
    {[ "REQUEST_METHOD" := "POST"; "CONTENT_LENGTH" := "-1" ]} in
  let body := if -1 <? 0 then "hello world" else Py.take (Z.to_nat (-1)) "hello world" in
  let rest := if -1 <? 0 then "" else Py.drop (Z.to_nat (-1)) "hello world" in
  fst (run (Test.main read_ok environ) (inr "hello world")) = Return tt
  /\ w_stdin (snd (run (Test.main read_ok environ) (inr "hello world"))) = inr rest
  /\ body +:+ rest = "hello world"
  /\ (-1 < 0 \/ Py.len "hello world" <= -1 -> body = "hello world" /\ rest = "")
  /\ exists page,
       stdout (w_trace (snd (run (Test.main read_ok environ) (inr "hello world"))))
       = "Content-Type: text/html" +:+ Cgi.CRLF +:+ Cgi.CRLF +:+ page
         +:+ "<p>Received " +:+ Py.str (Py.len body) +:+ " bytes:</p>" +:+ Py.LF
         +:+ "<pre>" +:+ body +:+ "</pre>" +:+ Py.LF
         +:+ "</body>" +:+ Py.LF +:+ "</html>" +:+ Py.LF.
Proof.
  intros read_ok environ.
  refine (test_post_body_any_length read_ok environ "-1" "hello world" (-1) _ _ _ _ _);
    [subst environ; vm_compute; reflexivity|subst environ; vm_compute; reflexivity
    |vm_compute; reflexivity|vm_compute; split; discriminate|reflexivity].
Defined.

End TestExtras.

(** ** More about [slow_client.py] *)

Section ClientExtras.

Lemma slept_app (actions later : list SlowClient.action) :
  slept (actions ++ later) = slept actions + slept later.
Proof.
  induction actions as [|[] actions IH]; cbn [app slept]; lia.
Qed.

Lemma slept_reads_log (total : Z) (received : list string) :
  slept (SlowClient.reads_log total received) = 50 * Z.of_nat (length received).
Proof.
  revert total; induction received as [|data received IH]; intros total;
    cbn [SlowClient.reads_log slept length]; [lia|]. rewrite IH. lia.
Qed.

Lemma total_length_bounds (received : list string) :
  Forall (fun data => data <> "" /\ (String.length data <= 1024)%nat) received ->
  Z.of_nat (length received) <= SlowClient.total_length received
  /\ SlowClient.total_length received <= 1024 * Z.of_nat (length received).
Proof.
  induction 1 as [|data received [Hdata Hlen] _ IH]; [cbn; lia|].
  rewrite total_length_cons. cbn [length]. unfold Py.len.
  assert (0 < String.length data)%nat.
  { destruct data; [done|cbn; lia]. }
  lia.
Qed.

(** X14.  The pace of the client.  With enough fuel for the response the
    run ends, whatever the fuel, with the same count: the length of the
    response.  The pauses take between 50 milliseconds for each 1024 bytes
    received and 50 milliseconds for each byte: the client sleeps once for
    every chunk, and a chunk has from 1 to 1024 bytes.  Nothing is left on
    the connection. *)
Theorem slow_client_throttle (fuel : nat) (response : SlowClient.connection) :
  (SlowClient.pending response < fuel)%nat ->
  exists st,
    SlowClient.client fuel response = Some st
    /\ SlowClient.conn st = []
    /\ SlowClient.total_bytes st = SlowClient.total_length response
    /\ 50 * SlowClient.total_bytes st <= 1024 * slept (SlowClient.log st)
    /\ slept (SlowClient.log st) <= 50 * SlowClient.total_bytes st.
Proof.
  intros Hfuel. unfold SlowClient.client.
  destruct (read_loop_spec fuel response 0
              [SlowClient.Connect SlowClient.HOST SlowClient.PORT;
               SlowClient.SendAll SlowClient.request;
               SlowClient.Print ("Request sent. Reading slowly..." +:+ Py.LF)]
              Hfuel) as (received & -> & Hall & _ & Htotal).
  eexists. split; [reflexivity|].
  cbn [SlowClient.conn SlowClient.total_bytes SlowClient.log].
  rewrite !slept_app, slept_reads_log. cbn [slept].
  destruct (total_length_bounds received Hall) as [Hlow Hhigh].
  split; [reflexivity|]. split; [lia|]. lia.
Qed.

Lemma slow_client_throttle_witness :
  exists st,
    SlowClient.client 9 ["abc"; ""; "de"] = Some st
    /\ SlowClient.conn st = []
    /\ SlowClient.total_bytes st = SlowClient.total_length ["abc"; ""; "de"]
    /\ 50 * SlowClient.total_bytes st <= 1024 * slept (SlowClient.log st)
    /\ slept (SlowClient.log st) <= 50 * SlowClient.total_bytes st.
Proof. apply (slow_client_throttle 9 ["abc"; ""; "de"]). cbn. lia. Defined.

End ClientExtras.
